(** * import_models.py: a shallow embedding and its properties

    The script reads a parsed JSON snapshot, resolves for every entry a
    URL, a display name and a destination below the models directory, and
    downloads what is not there yet.  The embedding keeps the script's
    structure: [choose_folder_by_name], [ensure_dir], [download_file] and
    [main] are the source functions; the file system, the standard output
    and the network are an explicit [world] threaded through them, and the
    behaviour of the network and of the operating system is an [env]
    oracle over which every theorem is quantified.

    Conventions of the model:
    - Python [str] values are Rocq strings; [str.lower] is modelled on the
      ASCII letters (every key and keyword of the script is ASCII);
    - paths are [pathlib.PurePosixPath] values (the script runs in a Linux
      image build); the file store is keyed by the path text handed to the
      operating system.  Two texts can name one file ([x/../m] and [m], a
      relative and an absolute path, a link): the statements that need two
      paths to be two files are stated for texts in pathlib's normal form
      with the same anchor and without [..], on a file system without
      links;
    - which system calls fail is the environment's choice: directory
      creation (after any number of the directories were made), the
      [stat] behind [Path.exists], every step of a download attempt;
    - nothing but the script changes the file store during a run. *)

From Stdlib Require Import String Ascii List ZArith QArith Bool Lia.
From Stdlib Require Import Floats.SpecFloat.
From stdpp Require Import gmap strings list fin_maps.

Local Set Warnings "-register-all".
Local Open Scope string_scope.
Local Open Scope list_scope.

(** ** Strings as the script uses them *)

Module Str.

(** [c.lower()] on one ASCII character. *)
Definition lower_ascii (c : ascii) : ascii :=
  let n := N_of_ascii c in
  if ((65 <=? n) && (n <=? 90))%N then ascii_of_N (n + 32) else c.

(** [s.lower()] *)
Fixpoint lower (s : string) : string :=
  match s with
  | EmptyString => EmptyString
  | String c r => String (lower_ascii c) (lower r)
  end.

(** [s.startswith(p)] *)
Fixpoint starts_with (p s : string) : bool :=
  match p, s with
  | EmptyString, _ => true
  | String a p', String b s' => if Ascii.eqb a b then starts_with p' s' else false
  | String _ _, EmptyString => false
  end.

(** [kw in s]: [kw] occurs in [s] as a contiguous substring. *)
Fixpoint contains (kw s : string) : bool :=
  starts_with kw s ||
  match s with
  | EmptyString => false
  | String _ r => contains kw r
  end.

(** [s.split(sep)[0]] for a one-character separator: the text before the
    first [sep], the whole text when there is none. *)
Fixpoint before_first (sep : ascii) (s : string) : string :=
  match s with
  | EmptyString => EmptyString
  | String c r => if Ascii.eqb c sep then EmptyString else String c (before_first sep r)
  end.

(** [s.split(sep)]: the pieces between the separators, in order. *)
Fixpoint split_on (sep : ascii) (s : string) : list string :=
  match s with
  | EmptyString => [EmptyString]
  | String c r =>
      if Ascii.eqb c sep then EmptyString :: split_on sep r
      else match split_on sep r with
           | [] => [String c EmptyString]
           | p :: ps => String c p :: ps
           end
  end.

(** [sep.join(parts)] *)
Fixpoint join (sep : string) (parts : list string) : string :=
  match parts with
  | [] => EmptyString
  | [p] => p
  | p :: ps => p ++ sep ++ join sep ps
  end.

(** Number of leading [c] characters. *)
Fixpoint leading (c : ascii) (s : string) : nat :=
  match s with
  | String d r => if Ascii.eqb d c then S (leading c r) else 0
  | EmptyString => 0
  end.

End Str.

(** ** The destination layout table and folder classification *)

(** [DEFAULT_LAYOUT]: a dict literal, iterated in insertion order. *)
Definition DEFAULT_LAYOUT : list (string * list string) :=
  [ ("checkpoints", ["ckpt"; "safetensors"; "pt"]);
    ("vae", ["vae"]);
    ("diffusers", ["diffusers"; "diffuser"]);
    ("embeddings", ["embeddings"; "bin"]);
    ("clip", ["clip"]);
    ("upscale_models", ["upscale"; "realesrgan"]) ].

(** The inner loop [for kw in keywords: if kw in name: return folder];
    [true] when the [return] fires. *)
Fixpoint keyword_hit (name : string) (keywords : list string) : bool :=
  match keywords with
  | [] => false
  | kw :: rest => if Str.contains kw name then true else keyword_hit name rest
  end.

(** The outer loop [for folder, keywords in layout.items()]. *)
Fixpoint scan_layout (name : string) (layout : list (string * list string))
  : option string :=
  match layout with
  | [] => None
  | (folder, keywords) :: rest =>
      if keyword_hit name keywords then Some folder else scan_layout name rest
  end.

(** [choose_folder_by_name(filename)] *)
Definition choose_folder_by_name (filename : string) : string :=
  let name := Str.lower filename in
  match scan_layout name DEFAULT_LAYOUT with
  | Some folder => folder
  | None => "checkpoints"
  end.

(** The classification as the specification words it: the first folder of
    the table, in table order, one of whose keywords occurs in the
    lower-cased name; the catch-all folder when there is none. *)
Definition first_matching_folder (layout : list (string * list string))
  (name : string) : string :=
  match List.find (fun fk => existsb (fun kw => Str.contains kw name) (snd fk)) layout with
  | Some fk => fst fk
  | None => "checkpoints"
  end.


(** ** Parsed JSON: the values [json.load] returns *)

Inductive json : Type :=
| JNull                               (* None *)
| JBool (b : bool)
| JInt (n : Z)
| JFloat (f : spec_float)
| JStr (s : string)
| JList (l : list json)
| JDict (kv : list (string * json)).  (* keys distinct, in insertion order *)

(** Python truth value: [bool(v)]. *)
Definition truthy (v : json) : bool :=
  match v with
  | JNull => false
  | JBool b => b
  | JInt n => negb (n =? 0)%Z
  | JFloat (S754_zero _) => false
  | JFloat _ => true
  | JStr s => negb (String.eqb s "")
  | JList [] => false
  | JList (_ :: _) => true
  | JDict [] => false
  | JDict (_ :: _) => true
  end.

(** [a or b]: [a] when it is true, [b] otherwise. *)
Definition py_or (a b : json) : json := if truthy a then a else b.

(** [d[key]] when [key in d]. *)
Fixpoint dict_lookup (kv : list (string * json)) (key : string) : option json :=
  match kv with
  | [] => None
  | (k, v) :: rest => if String.eqb k key then Some v else dict_lookup rest key
  end.

(** [d.get(key)]: [None] for a missing key. *)
Definition dict_get (kv : list (string * json)) (key : string) : json :=
  match dict_lookup kv key with
  | Some v => v
  | None => JNull
  end.

(** [list(d.values())] *)
Definition dict_values (kv : list (string * json)) : list json := List.map snd kv.

(** ** Exceptions and results *)

Inductive exn : Type :=
| AttributeError     (* a method of [dict] or [str] called on another type *)
| TypeError          (* [Path / x] for an [x] that is no string *)
| OSError            (* raised by the operating system *)
| ValueError         (* a path the operating system cannot take, e.g. with a NUL *)
| JSONDecodeError.   (* the snapshot cannot be opened or parsed *)

Inductive result (A : Type) : Type :=
| Ok (a : A)
| Raise (e : exn).
Arguments Ok {A} a.
Arguments Raise {A} e.

Definition bind {A B : Type} (r : result A) (k : A -> result B) : result B :=
  match r with
  | Ok a => k a
  | Raise e => Raise e
  end.

Notation "x <- r ;; k" := (bind r (fun x => k))
  (at level 100, r at next level, right associativity).

(** ** Paths: [pathlib.PurePosixPath] *)

Record ppath : Type := { anchor : string; parts : list string }.

(** [PurePosixPath(s)]: exactly two leading slashes are kept, one or
    three and more are one root; empty and [.] components are dropped. *)
Definition parse_path (s : string) : ppath :=
  {| anchor := match Str.leading "/" s with
               | 0 => ""
               | 2 => "//"
               | _ => "/"
               end;
     parts := List.filter (fun c => negb (String.eqb c "") && negb (String.eqb c "."))
                (Str.split_on "/" s) |}.

(** [p / q]: an anchored right operand replaces the left one. *)
Definition path_join (p q : ppath) : ppath :=
  if String.eqb (anchor q) "" then {| anchor := anchor p; parts := parts p ++ parts q |}
  else q.

(** [str(p)] *)
Definition path_str (p : ppath) : string :=
  match anchor p, parts p with
  | EmptyString, [] => "."
  | a, ps => a ++ Str.join "/" ps
  end.

(** [p.parent] *)
Definition parent (p : ppath) : ppath :=
  {| anchor := anchor p; parts := List.removelast (parts p) |}.

(** The directories [os.makedirs(p)] goes through: [p] and the paths above
    it, the bare anchor left out. *)
Definition dir_chain (p : ppath) : list string :=
  List.map (fun k => path_str {| anchor := anchor p; parts := List.firstn k (parts p) |})
           (List.seq 1 (List.length (parts p))).

(** The proper ancestors of [p]. *)
Definition ancestors (p : ppath) : list string := dir_chain (parent p).

(** [os.path.basename(s)]: the text after the last slash. *)
Definition basename (s : string) : string :=
  List.last (Str.split_on "/" s) "".

(** ** The world: file store, standard output, network *)

Definition bytes : Type := list Byte.byte.

Inductive message : Type :=
| MsgUsage
| MsgUnrecognized
| MsgFound (n : nat)
| MsgSkipNoUrl (entry : json)
| MsgExists (dest : string)
| MsgDownloading (name : json) (dest : string)
| MsgDownloaded (dest : string)
| MsgFailed (url : json)
| MsgAttemptFailed (attempt : nat) (err : string)
| MsgFinished (downloaded : nat).

Inductive event : Type :=
| Print (m : message)
| Sleep (seconds : Q).

(** What one pass through the [try] block of [download_file] meets. *)
Inductive attempt : Type :=
| ConnectFails (err : string)                  (* [urlopen] raises *)
| OpenTmpFails (err : string)                  (* [open(tmp, "wb")] raises *)
| CopyFails (written : bytes) (err : string)   (* [copyfileobj] raises midway *)
| ReplaceFails (body : bytes) (err : string)   (* [os.replace] raises *)
| Completes (body : bytes).

(** The environment: what the [i]-th request of the process meets for a
    URL; for which paths [os.makedirs] fails, after how many directories
    of the chain were made and with which exception; for which paths that
    are not there [stat] fails with an error that [Path.exists] raises
    again (a name too long, a directory that may not be searched); the
    text of the exception [urlopen] raises for an argument that is not a
    string; and what opening and parsing the snapshot gives. *)
Record env : Type := {
  net : string -> nat -> attempt;
  mkdir_fails : string -> bool;
  mkdir_made : string -> nat;
  mkdir_error : string -> exn;
  stat_fails : string -> bool;
  url_type_error : json -> string;
  read_json : string -> result json
}.

Record world : Type := {
  files : gmap string bytes;     (* regular files, by path text *)
  dirs : gset string;            (* directories, by path text *)
  requests : nat;                (* requests sent so far *)
  out : list event;              (* standard output and sleeps, newest first *)
  history : list (gmap string bytes)
      (* every state the file store went through, newest first *)
}.

Definition print (m : message) (w : world) : world :=
  {| files := files w; dirs := dirs w; requests := requests w;
     out := Print m :: out w; history := history w |}.

Definition sleep (d : Q) (w : world) : world :=
  {| files := files w; dirs := dirs w; requests := requests w;
     out := Sleep d :: out w; history := history w |}.

Definition count_request (w : world) : world :=
  {| files := files w; dirs := dirs w; requests := S (requests w);
     out := out w; history := history w |}.

Definition set_files (f : gmap string bytes) (w : world) : world :=
  {| files := f; dirs := dirs w; requests := requests w;
     out := out w; history := f :: history w |}.

(** [open(p, "wb")]: the file is created, or emptied when it is there. *)
Definition open_wb (p : string) (w : world) : world :=
  set_files (<[p := []]> (files w)) w.

(** [shutil.copyfileobj(r, f)] as far as it gets: [data] has been written
    when it returns or raises. *)
Definition copy_into (p : string) (data : bytes) (w : world) : world :=
  set_files (<[p := data]> (files w)) w.

(** [os.replace(src, dst)]: one atomic rename. *)
Definition replace_file (src dst : string) (w : world) : world :=
  match files w !! src with
  | Some data => set_files (<[dst := data]> (delete src (files w))) w
  | None => w
  end.

(** What the store holds at a path text: a file or a directory is
    there; the current directory and the root always are.  It is the value
    of [Path.exists()] when [stat] does not fail (see [dest_exists]). *)
Definition path_exists (w : world) (p : string) : bool :=
  bool_decide (is_Some (files w !! p)) || bool_decide (p ∈ dirs w)
  || String.eqb p "." || String.eqb p "/" || String.eqb p "//".

(** [ensure_dir(p)]: [os.makedirs(p, exist_ok=True)] makes the missing
    directories from the top down; when it fails the ones made so far
    stay. *)
Definition ensure_dir (E : env) (p : ppath) (w : world) : result unit * world :=
  if mkdir_fails E (path_str p) then
    (Raise (mkdir_error E (path_str p)),
     {| files := files w;
        dirs := dirs w ∪ list_to_set (List.firstn (mkdir_made E (path_str p)) (dir_chain p));
        requests := requests w; out := out w; history := history w |})
  else (Ok tt,
        {| files := files w; dirs := dirs w ∪ list_to_set (dir_chain p);
           requests := requests w; out := out w; history := history w |}).

(** [dest.exists()] of line 115: [True] for what is there; for what is
    not, [False], unless [stat] fails with an error other than "no such
    file", which [Path.exists] raises again. *)
Definition dest_exists (E : env) (w : world) (p : string) : result bool :=
  if path_exists w p then Ok true
  else if stat_fails E p then Raise OSError
  else Ok false.


(** ** [download_file] *)

Definition DEFAULT_RETRIES : nat := 3.
Definition DEFAULT_BACKOFF : Q := 3 # 2.

(** [str(dest) + ".tmp"] *)
Definition tmp_path (dest : ppath) : string := path_str dest ++ ".tmp".

(** The body of the [try]: [None] when it reaches [return True], the
    error text when it raises.  [urlopen] raises on an argument that is
    not a string before anything is sent. *)
Definition try_body (E : env) (url : json) (tmp dest : string) (w : world)
  : option string * world :=
  match url with
  | JStr u =>
      let w1 := count_request w in
      match net E u (requests w) with
      | ConnectFails err => (Some err, w1)
      | OpenTmpFails err => (Some err, w1)
      | CopyFails written err => (Some err, copy_into tmp written (open_wb tmp w1))
      | ReplaceFails body err => (Some err, copy_into tmp body (open_wb tmp w1))
      | Completes body =>
          (None, replace_file tmp dest (copy_into tmp body (open_wb tmp w1)))
      end
  | _ => (Some (url_type_error E url), w)
  end.

(** [for attempt in range(attempt, attempt + remaining)].  The sleep is
    the exact product [backoff * attempt]: the model is that of the calls
    whose backoff is not negative ([time.sleep] raises on a negative
    value) and whose products are exact in floating point, as those of the
    default 1.5, the only backoff [main] uses. *)
Fixpoint attempts (E : env) (url : json) (tmp dest : string) (backoff : Q)
  (attempt remaining : nat) (w : world) : bool * world :=
  match remaining with
  | 0 => (false, w)
  | S k =>
      match try_body E url tmp dest w with
      | (None, w1) => (true, w1)
      | (Some err, w1) =>
          attempts E url tmp dest backoff (S attempt) k
            (sleep (backoff * inject_Z (Z.of_nat attempt))
               (print (MsgAttemptFailed attempt err) w1))
      end
  end.

(** [download_file(url, dest, retries, backoff)] *)
Definition download_file (E : env) (url : json) (dest : ppath)
  (retries : nat) (backoff : Q) (w : world) : bool * world :=
  attempts E url (tmp_path dest) (path_str dest) backoff 1 retries w.

(** ** [main] *)

(** Lines 74-87: the entries of the snapshot, [None] for the branch that
    prints the complaint and exits. *)
Definition manifest_entries (data : json) : option (list json) :=
  match data with
  | JDict kv =>
      match dict_lookup kv "models" with
      | Some (JList l) => Some l
      | _ => Some (dict_values kv)
      end
  | JList l => Some l
  | _ => None
  end.

(** [entry.get(key)]; only a dict has the method. *)
Definition entry_get (entry : json) (key : string) : result json :=
  match entry with
  | JDict kv => Ok (dict_get kv key)
  | _ => Raise AttributeError
  end.

(** Line 94. *)
Definition entry_url (entry : json) : result json :=
  a <- entry_get entry "download_url" ;;
  b <- entry_get entry "url" ;;
  c <- entry_get entry "file_url" ;;
  d <- entry_get entry "location" ;;
  Ok (py_or a (py_or b (py_or c d))).

(** Line 95. *)
Definition entry_name (entry : json) : result json :=
  a <- entry_get entry "name" ;;
  b <- entry_get entry "filename" ;;
  Ok (py_or a (py_or b JNull)).

(** Line 96. *)
Definition entry_rel_path (entry : json) : result json :=
  a <- entry_get entry "path" ;;
  b <- entry_get entry "relative_path" ;;
  Ok (py_or a (py_or b JNull)).

(** Line 103: [os.path.basename(url.split("?")[0])]. *)
Definition name_from_url (url : json) : result json :=
  match url with
  | JStr u => Ok (JStr (basename (Str.before_first "?" u)))
  | _ => Raise AttributeError
  end.

(** What lines 94-113 settle for an entry that has a URL: the directory
    handed to [ensure_dir] and the destination. *)
Record plan : Type := {
  p_url : json;
  p_name : json;
  p_mkdir : ppath;
  p_dest : ppath
}.

(** Lines 94-113 without the call of [ensure_dir], which comes after every
    step of them that can raise (it is made by [process_entry]); [None]
    is the [continue] of line 100. *)
Definition resolve_entry (dest_root : string) (entry : json) : result (option plan) :=
  url <- entry_url entry ;;
  name <- entry_name entry ;;
  rel_path <- entry_rel_path entry ;;
  if negb (truthy url) then Ok None
  else
    name <- (if negb (truthy name) then name_from_url url else Ok name) ;;
    if truthy rel_path then
      match rel_path with
      | JStr rel =>
          let dest := path_join (parse_path dest_root) (parse_path rel) in
          Ok (Some {| p_url := url; p_name := name;
                      p_mkdir := parent dest; p_dest := dest |})
      | _ => Raise TypeError
      end
    else
      match name with
      | JStr n =>
          let folder := choose_folder_by_name n in
          let dest_dir := path_join (parse_path dest_root) (parse_path folder) in
          Ok (Some {| p_url := url; p_name := name;
                      p_mkdir := dest_dir;
                      p_dest := path_join dest_dir (parse_path n) |})
      | _ => Raise AttributeError
      end.

(** Lines 115-125 once [dest.exists()] has returned (see [dest_exists]
    and [process_entry] for the call that raises): the branch on the
    destination and the download. *)
Definition fetch (E : env) (name url : json) (dest : ppath) (downloaded : nat)
  (w : world) : nat * world :=
  if path_exists w (path_str dest) then
    (downloaded, print (MsgExists (path_str dest)) w)
  else
    let w1 := print (MsgDownloading name (path_str dest)) w in
    match download_file E url dest DEFAULT_RETRIES DEFAULT_BACKOFF w1 with
    | (true, w2) => (S downloaded, print (MsgDownloaded (path_str dest)) w2)
    | (false, w2) => (downloaded, print (MsgFailed url) w2)
    end.

(** The body of the loop of line 92. *)
Definition process_entry (E : env) (dest_root : string) (entry : json)
  (downloaded : nat) (w : world) : result nat * world :=
  match resolve_entry dest_root entry with
  | Raise e => (Raise e, w)
  | Ok None => (Ok downloaded, print (MsgSkipNoUrl entry) w)
  | Ok (Some p) =>
      match ensure_dir E (p_mkdir p) w with
      | (Raise e, w1) => (Raise e, w1)
      | (Ok _, w1) =>
          match dest_exists E w1 (path_str (p_dest p)) with
          | Raise e => (Raise e, w1)
          | Ok _ =>
              let (n, w2) := fetch E (p_name p) (p_url p) (p_dest p) downloaded w1 in
              (Ok n, w2)
          end
      end
  end.

(** [for entry in entries] *)
Fixpoint run_entries (E : env) (dest_root : string) (entries : list json)
  (downloaded : nat) (w : world) : result nat * world :=
  match entries with
  | [] => (Ok downloaded, w)
  | entry :: rest =>
      match process_entry E dest_root entry downloaded w with
      | (Raise e, w1) => (Raise e, w1)
      | (Ok n, w1) => run_entries E dest_root rest n w1
      end
  end.

(** How the process ends. *)
Inductive status : Type :=
| Exit (code : Z)           (* [sys.exit(code)], or the end of [main] *)
| Uncaught (e : exn).       (* a traceback *)

Definition exit_code (s : status) : Z :=
  match s with
  | Exit code => code
  | Uncaught _ => 1
  end.

(** [main()], [argv] being [sys.argv]. *)
Definition main (E : env) (argv : list string) (w : world) : status * world :=
  match argv with
  | _ :: snapshot_path :: dest_root :: _ =>
      match read_json E snapshot_path with
      | Raise e => (Uncaught e, w)
      | Ok data =>
          match manifest_entries data with
          | None => (Exit 1, print MsgUnrecognized w)
          | Some entries =>
              let w1 := print (MsgFound (List.length entries)) w in
              match run_entries E dest_root entries 0 w1 with
              | (Raise e, w2) => (Uncaught e, w2)
              | (Ok n, w2) => (Exit 0, print (MsgFinished n) w2)
              end
          end
      end
  | _ => (Exit 2, print MsgUsage w)
  end.

(** The empty world. *)
Definition empty_world : world :=
  {| files := ∅; dirs := ∅; requests := 0; out := []; history := [] |}.


(** ** Notions the statements use *)

(** Some keyword of the table occurs in [name]. *)
Definition any_keyword (layout : list (string * list string)) (name : string) : bool :=
  existsb (fun fk => existsb (fun kw => Str.contains kw name) (snd fk)) layout.

(** What the failed attempts numbered [attempt], [attempt + 1], ... with
    the error texts [errs] print and sleep, in the order of time. *)
Fixpoint failure_log (backoff : Q) (attempt : nat) (errs : list string) : list event :=
  match errs with
  | [] => []
  | err :: rest =>
      Print (MsgAttemptFailed attempt err)
      :: Sleep (backoff * inject_Z (Z.of_nat attempt))
      :: failure_log backoff (S attempt) rest
  end.

(** The temporary file after an attempt that does not complete: rewritten
    when the attempt got as far as opening it, left as it was otherwise. *)
Definition tmp_step (before : option bytes) (o : attempt) : option bytes :=
  match o with
  | CopyFails written _ => Some written
  | ReplaceFails body _ => Some body
  | _ => before
  end.

(** The temporary file after the attempts [os], none of which completes. *)
Definition tmp_after (before : option bytes) (os : list attempt) : option bytes :=
  List.fold_left tmp_step os before.

(** [body] is what a request for [url] numbered in [lo, hi) delivered in
    full. *)
Definition complete_body (E : env) (url : json) (lo hi : nat) (body : bytes) : Prop :=
  exists u i, url = JStr u /\ lo <= i < hi /\ net E u i = Completes body.

(** From [w0] to [w] the path [d] was never seen holding anything but
    what it held in [w0] or a body delivered in full. *)
Definition dest_safe (E : env) (url : json) (d : string) (w0 w : world) : Prop :=
  requests w0 <= requests w /\
  exists new,
    history w = new ++ history w0 /\
    files w = List.hd (files w0) new /\
    forall s, In s (files w :: new) ->
      s !! d = files w0 !! d \/
      exists body, complete_body E url (requests w0) (requests w) body /\ s !! d = Some body.

(** From [w] to [w'] the path [p] is not removed. *)
Definition kept (p : string) (w w' : world) : Prop :=
  (is_Some (files w !! p) -> is_Some (files w' !! p)) /\ dirs w ⊆ dirs w'.

(** The fields read for the URL, in the order of line 94. *)
Definition URL_KEYS : list string := ["download_url"; "url"; "file_url"; "location"].

(** All the fields lines 94-96 read. *)
Definition FIELD_KEYS : list string :=
  URL_KEYS ++ ["name"; "filename"; "path"; "relative_path"].

(** The first value, in the order of [keys], that is true in Python's
    sense. *)
Definition first_truthy (kv : list (string * json)) (keys : list string) : option json :=
  List.find truthy (List.map (dict_get kv) keys).

(** The first value, in the order of [keys], that is present and not
    [null]: the reading of the specification. *)
Fixpoint first_present (kv : list (string * json)) (keys : list string) : option json :=
  match keys with
  | [] => None
  | k :: rest =>
      match dict_lookup kv k with
      | Some JNull | None => first_present kv rest
      | Some v => Some v
      end
  end.

(** A string, or a value Python takes for false. *)
Definition str_or_falsy (v : json) : bool :=
  match v with
  | JStr _ => true
  | _ => negb (truthy v)
  end.

(** An entry that is an object each of whose recognised fields is absent,
    false or a string. *)
Definition well_formed_entry (entry : json) : bool :=
  match entry with
  | JDict kv => forallb (fun k => str_or_falsy (dict_get kv k)) FIELD_KEYS
  | _ => false
  end.

(** ** Concrete environments for the examples *)

(** The [i]-th request of the process meets [os[i]], every request past
    the end of [os] a refused connection; every directory can be created,
    [stat] never fails and the snapshot parses to [snapshot]. *)
Definition scripted_env (os : list attempt) (snapshot : json) : env :=
  {| net := fun _ i => List.nth i os (ConnectFails "refused");
     mkdir_fails := fun _ => false;
     mkdir_made := fun _ => 0;
     mkdir_error := fun _ => OSError;
     stat_fails := fun _ => false;
     url_type_error := fun _ => "object has no attribute 'timeout'";
     read_json := fun _ => Ok snapshot |}.

(** [sys.argv] of the examples. *)
Definition example_argv : list string := ["import_models.py"; "snapshot.json"; "models"].

(** An entry with a URL only: the name comes from the URL and the folder
    from the name. *)
Definition entry_a : json := JDict [("download_url", JStr "http://h/a.bin")].

(** What [resolve_entry "models"] settles for [entry_a]. *)
Definition plan_a : plan :=
  {| p_url := JStr "http://h/a.bin"; p_name := JStr "a.bin";
     p_mkdir := {| anchor := ""; parts := ["models"; "embeddings"] |};
     p_dest := {| anchor := ""; parts := ["models"; "embeddings"; "a.bin"] |} |}.

(** Every connection is refused. *)
Definition refusing_env : env := scripted_env [] (JList [entry_a]).

(** Every transfer breaks after two bytes. *)
Definition breaking_env : env :=
  scripted_env [CopyFails [Byte.x01; Byte.x02] "reset";
                CopyFails [Byte.x03; Byte.x04] "reset";
                CopyFails [Byte.x05; Byte.x06] "reset"] (JList [entry_a]).

(** An entry whose first URL field is empty and whose second is not. *)
Definition entry_empty_first : json :=
  JDict [("download_url", JStr ""); ("url", JStr "http://h/a.bin")].

(** An entry with an empty [path] and a name that classifies as "vae". *)
Definition entry_empty_path : json :=
  JDict [("download_url", JStr "http://h/x_vae.bin"); ("path", JStr "")].

(** Two entries, the destination of the second being the temporary file
    of the first. *)
Definition entry_m : json :=
  JDict [("url", JStr "http://h/a"); ("path", JStr "m")].
Definition entry_m_tmp : json :=
  JDict [("url", JStr "http://h/b"); ("path", JStr "m.tmp")].

(** Two runs in a row: the three requests for [entry_m] are refused in the
    first run, every other request delivers its body. *)
Definition two_runs_env : env :=
  scripted_env [ConnectFails "refused"; ConnectFails "refused"; ConnectFails "refused";
                Completes [Byte.x0b];
                Completes [Byte.x0a];
                Completes [Byte.x0b]]
               (JList [entry_m; entry_m_tmp]).

(** The world the first run leaves. *)
Definition after_first_run : world := snd (main two_runs_env example_argv empty_world).

(** The world of the second run when it comes to [entry_m_tmp]. *)
Definition second_run_at_m_tmp : world :=
  snd (process_entry two_runs_env "models" entry_m 0
         (print (MsgFound 2) after_first_run)).

(** The first request delivers its one-byte body. *)
Definition delivering_env : env := scripted_env [Completes [Byte.x01]] (JList [entry_a]).

(** The world after [entry_a] was downloaded into the empty world. *)
Definition after_download : world :=
  snd (fetch delivering_env (p_name plan_a) (p_url plan_a) (p_dest plan_a) 0 empty_world).

(** ** Notions the further properties use *)

(** [c in s] for one character. *)
Fixpoint str_has (c : ascii) (s : string) : bool :=
  match s with
  | EmptyString => false
  | String d r => Ascii.eqb d c || str_has c r
  end.

(** A name that is one path component: not empty, not [.], no slash. *)
Definition plain_name (n : string) : Prop :=
  n <> "" /\ n <> "." /\ str_has "/" n = false.

(** The number of "Downloaded:" lines in an output. *)
Definition count_downloaded (evs : list event) : nat :=
  List.length
    (List.filter (fun ev => match ev with Print (MsgDownloaded _) => true | _ => false end)
       evs).

(** The fields read for the display name, in the order of line 95. *)
Definition NAME_KEYS : list string := ["name"; "filename"].

(** The keywords of the folder the table tests first. *)
Definition CHECKPOINT_KEYWORDS : list string := ["ckpt"; "safetensors"; "pt"].

(** The fields read for the relative path, in the order of line 96. *)
Definition PATH_KEYS : list string := ["path"; "relative_path"].

(** ** Notions the statements on whole runs use *)

(** The error text of an attempt that does not complete. *)
Definition error_of (o : attempt) : option string :=
  match o with
  | ConnectFails err | OpenTmpFails err | CopyFails _ err | ReplaceFails _ err => Some err
  | Completes _ => None
  end.

(** The error texts of the attempts before the first that completes. *)
Fixpoint leading_errors (os : list attempt) : list string :=
  match os with
  | [] => []
  | o :: rest =>
      match error_of o with
      | Some err => err :: leading_errors rest
      | None => []
      end
  end.

(** Some attempt completes. *)
Definition any_completes (os : list attempt) : bool :=
  existsb (fun o => match error_of o with None => true | Some _ => false end) os.

(** What the three attempts of a download with the default arguments
    meet, for a URL and a world. *)
Definition three_attempts (E : env) (u : string) (w : world) : list attempt :=
  [net E u (requests w); net E u (requests w + 1); net E u (requests w + 2)].

(** The line that closes the processing of an entry. *)
Definition is_outcome (ev : event) : bool :=
  match ev with
  | Print (MsgSkipNoUrl _) | Print (MsgExists _)
  | Print (MsgDownloaded _) | Print (MsgFailed _) => true
  | _ => false
  end.

Definition outcome_lines (evs : list event) : list event := List.filter is_outcome evs.

(** [ev] closes the processing of [entry]: the skip of an entry without
    URL, or for the destination and URL of the entry one of "already
    exists", "downloaded" and "failed". *)
Definition outcome_of (dest_root : string) (entry : json) (ev : event) : Prop :=
  match resolve_entry dest_root entry with
  | Ok None => ev = Print (MsgSkipNoUrl entry)
  | Ok (Some p) =>
      ev = Print (MsgExists (path_str (p_dest p)))
      \/ ev = Print (MsgDownloaded (path_str (p_dest p)))
      \/ ev = Print (MsgFailed (p_url p))
  | Raise _ => False
  end.

(** No component of the path is [..]. *)
Definition dotdot_free (p : ppath) : bool :=
  negb (existsb (String.eqb "..") (parts p)).

(** A text that is its own pathlib form, without [..]. *)
Definition normal_text (q : string) : Prop :=
  path_str (parse_path q) = q /\ dotdot_free (parse_path q) = true.

(** Two entries: one placed by its name, one by its path. *)
Definition entry_b : json :=
  JDict [("url", JStr "http://h/b.bin"); ("path", JStr "extra/b.bin")].

(** The third request delivers, the first two break. *)
Definition third_time_env : env :=
  scripted_env [ConnectFails "refused"; CopyFails [Byte.x01] "reset"; Completes [Byte.x02]]
               (JList [entry_a]).

(** [stat] fails for paths of more than thirty characters, and a directory
    below [models/locked] cannot be made once [models/locked] is there. *)
Definition harsh_env : env :=
  {| net := fun _ _ => Completes [Byte.x01];
     mkdir_fails := fun p => Str.starts_with "models/locked/" p;
     mkdir_made := fun _ => 2;
     mkdir_error := fun _ => OSError;
     stat_fails := fun p => Nat.ltb 30 (String.length p);
     url_type_error := fun _ => "object has no attribute 'timeout'";
     read_json := fun _ => Ok (JList [entry_a]) |}.

(** * Properties *)

(** ** The model at work *)

Example path_join_relative :
  path_str (path_join (parse_path "/models/") (parse_path "a/./b//c.bin"))
  = "/models/a/b/c.bin".
Proof. reflexivity. Qed.

Example path_join_anchored :
  path_str (path_join (parse_path "models") (parse_path "/etc/x")) = "/etc/x".
Proof. reflexivity. Qed.

Example ancestors_of_dest :
  ancestors (path_join (parse_path "models") (parse_path "a/b/c.bin"))
  = ["models"; "models/a"; "models/a/b"].
Proof. reflexivity. Qed.

Example name_of_url :
  name_from_url (JStr "http://x/dir/a.safetensors?token=1") = Ok (JStr "a.safetensors").
Proof. reflexivity. Qed.

(** The scenario of the specification: one entry, an empty destination
    root, one request that succeeds. *)
Example one_entry_run :
  let E := scripted_env [Completes [Byte.x01]]
             (JDict [("models", JList [JDict [("download_url", JStr "http://x/a.safetensors")]])]) in
  let r := main E example_argv empty_world in
  fst r = Exit 0
  /\ files (snd r) !! "models/checkpoints/a.safetensors" = Some [Byte.x01]
  /\ requests (snd r) = 1
  /\ out (snd r)
     = [Print (MsgFinished 1);
        Print (MsgDownloaded "models/checkpoints/a.safetensors");
        Print (MsgDownloading (JStr "a.safetensors") "models/checkpoints/a.safetensors");
        Print (MsgFound 1)].
Proof. vm_compute. auto. Qed.

(** ** Substring test and classification *)

Lemma append_cons (c : ascii) (s t : string) :
  (String c s ++ t)%string = String c (s ++ t)%string.
Proof. reflexivity. Qed.

Lemma starts_with_spec (p s : string) :
  Str.starts_with p s = true <-> exists b, s = (p ++ b)%string.
Proof.
  revert s. induction p as [|a p IH]; intros s; simpl.
  - split; [intros _; now exists s | reflexivity].
  - destruct s as [|b s]; simpl.
    + split; [discriminate | intros [t Ht]; rewrite append_cons in Ht; discriminate].
    + destruct (Ascii.eqb a b) eqn:Hab.
      * apply Ascii.eqb_eq in Hab. subst b. rewrite IH.
        split; intros [t Ht]; exists t; rewrite append_cons in *; congruence.
      * apply Ascii.eqb_neq in Hab.
        split; [discriminate | intros [t Ht]; rewrite append_cons in Ht; congruence].
Qed.

(** [Str.contains] is the substring relation of Python's [in]. *)
Lemma contains_spec (kw s : string) :
  Str.contains kw s = true <-> exists a b, s = (a ++ kw ++ b)%string.
Proof.
  induction s as [|c r IH]; simpl; rewrite orb_true_iff, starts_with_spec.
  - split.
    + intros [[b Hb] | H]; [|discriminate]. exists "", b. exact Hb.
    + intros (a & b & H). left.
      destruct a; [|rewrite append_cons in H; discriminate]. exists b. exact H.
  - rewrite IH. split.
    + intros [[b Hb] | (a & b & H)].
      * exists "", b. exact Hb.
      * exists (String c a), b. rewrite append_cons. now rewrite H.
    + intros (a & b & H). destruct a as [|c' a].
      * left. now exists b.
      * right. exists a, b. rewrite append_cons in H. congruence.
Qed.

Lemma keyword_hit_existsb (name : string) (keywords : list string) :
  keyword_hit name keywords = existsb (fun kw => Str.contains kw name) keywords.
Proof.
  induction keywords as [|kw rest IH]; simpl; [reflexivity|].
  rewrite IH. now destruct (Str.contains kw name).
Qed.

Lemma scan_layout_find (name : string) (layout : list (string * list string)) :
  scan_layout name layout =
  option_map fst
    (List.find (fun fk => existsb (fun kw => Str.contains kw name) (snd fk)) layout).
Proof.
  induction layout as [|[folder keywords] rest IH]; simpl; [reflexivity|].
  rewrite keyword_hit_existsb, IH.
  now destruct (existsb _ keywords).
Qed.

(** C1 (as amended): the classification lower-cases the name and returns
    the first folder of the table, in table order, one of whose keywords
    occurs in it.  Hence a name containing "vae" goes to "vae" when none of
    the keywords of "checkpoints" ("ckpt", "safetensors", "pt"), the folder
    tested before, occurs in it; and a name in which no keyword of the
    table occurs goes to "checkpoints". *)
Theorem choose_folder_first_match (filename : string) :
  choose_folder_by_name filename
    = first_matching_folder DEFAULT_LAYOUT (Str.lower filename)
  /\ (Str.contains "vae" (Str.lower filename) = true ->
      keyword_hit (Str.lower filename) ["ckpt"; "safetensors"; "pt"] = false ->
      choose_folder_by_name filename = "vae")
  /\ (any_keyword DEFAULT_LAYOUT (Str.lower filename) = false ->
      choose_folder_by_name filename = "checkpoints").
Proof.
  unfold choose_folder_by_name, first_matching_folder.
  rewrite scan_layout_find. split; [|split].
  - now destruct (List.find _ DEFAULT_LAYOUT).
  - intros Hvae Hck. rewrite keyword_hit_existsb in Hck.
    unfold DEFAULT_LAYOUT. cbn [List.find snd]. rewrite Hck.
    cbn [existsb]. rewrite Hvae. reflexivity.
  - intros Hnone. unfold any_keyword in Hnone.
    destruct (List.find _ DEFAULT_LAYOUT) as [fk|] eqn:Hfind; [|reflexivity].
    apply List.find_some in Hfind. destruct Hfind as [Hin Hhit].
    assert (Hex : existsb (fun fk => existsb (fun kw => Str.contains kw (Str.lower filename)) (snd fk))
                    DEFAULT_LAYOUT = true).
    { apply existsb_exists. exists fk. split; assumption. }
    congruence.
Qed.

Lemma choose_folder_first_match_witness :
  choose_folder_by_name "my_VAE.bin" = "vae"
  /\ choose_folder_by_name "mystery_model_x" = "checkpoints".
Proof.
  split.
  - apply (proj1 (proj2 (choose_folder_first_match "my_VAE.bin"))); reflexivity.
  - apply (proj2 (proj2 (choose_folder_first_match "mystery_model_x"))); reflexivity.
Defined.

(** C1 as stated fails: a name containing "vae" and a keyword of
    "checkpoints" is classified as "checkpoints", the folder tested first. *)
Lemma vae_name_not_in_vae :
  ~ (forall filename : string,
       Str.contains "vae" (Str.lower filename) = true ->
       choose_folder_by_name filename = "vae").
Proof.
  intros H. specialize (H "sdxl_vae.safetensors" eq_refl). discriminate H.
Qed.

(** ** The file store under one download *)

Lemma append_empty_r (s : string) : (s ++ "")%string = s.
Proof. induction s as [|c s IH]; [reflexivity|]. rewrite append_cons. now rewrite IH. Qed.

(** The temporary file is never the destination itself. *)
Lemma tmp_path_ne (dest : ppath) : tmp_path dest <> path_str dest.
Proof.
  unfold tmp_path. intros H.
  rewrite <- (append_empty_r (path_str dest)) in H at 2.
  apply String.app_inj in H. discriminate H.
Qed.

Lemma replace_after_copy (tmp dst : string) (body : bytes) (w : world) :
  replace_file tmp dst (copy_into tmp body w)
  = set_files (<[dst := body]> (delete tmp (<[tmp := body]> (files w))))
              (copy_into tmp body w).
Proof.
  unfold replace_file. cbn [copy_into set_files files].
  now rewrite lookup_insert_eq.
Qed.

Section DestSafe.
Variable E : env.
Variable url : json.
Variable d : string.
Variable w0 : world.

Lemma dest_safe_refl : dest_safe E url d w0 w0.
Proof.
  split; [lia|]. exists []. repeat split.
  intros s [<-|[]]. now left.
Qed.

Lemma dest_safe_print (m : message) (w : world) :
  dest_safe E url d w0 w -> dest_safe E url d w0 (print m w).
Proof. intros H. exact H. Qed.

Lemma dest_safe_sleep (q : Q) (w : world) :
  dest_safe E url d w0 w -> dest_safe E url d w0 (sleep q w).
Proof. intros H. exact H. Qed.

Lemma complete_body_mono (lo hi hi' : nat) (body : bytes) :
  hi <= hi' -> complete_body E url lo hi body -> complete_body E url lo hi' body.
Proof.
  intros Hle (u & i & Hu & Hi & Hn). exists u, i. repeat split; try assumption; lia.
Qed.

Lemma dest_safe_count (w : world) :
  dest_safe E url d w0 w -> dest_safe E url d w0 (count_request w).
Proof.
  intros (Hle & new & Hh & Hf & Hs). split; [cbn; lia|].
  exists new. repeat split; try assumption.
  intros s Hin. destruct (Hs s Hin) as [Hsame | (body & Hb & Hsome)]; [now left|].
  right. exists body. split; [|assumption].
  eapply complete_body_mono; [|exact Hb]. cbn. lia.
Qed.

(** A change of the file store that leaves [d] alone. *)
Lemma dest_safe_other (f : gmap string bytes) (w : world) :
  dest_safe E url d w0 w -> f !! d = files w !! d ->
  dest_safe E url d w0 (set_files f w).
Proof.
  intros (Hle & new & Hh & Hf & Hs) Hd. split; [exact Hle|].
  exists (f :: new). cbn [set_files history files List.hd].
  split; [now rewrite Hh|]. split; [reflexivity|].
  intros s [<- | [<- | Hin]].
  - rewrite Hd. apply Hs. now left.
  - rewrite Hd. apply Hs. now left.
  - apply Hs. now right.
Qed.

(** A change of the file store that puts a complete body at [d]. *)
Lemma dest_safe_body (f : gmap string bytes) (body : bytes) (w : world) :
  dest_safe E url d w0 w ->
  complete_body E url (requests w0) (requests w) body ->
  f !! d = Some body ->
  dest_safe E url d w0 (set_files f w).
Proof.
  intros (Hle & new & Hh & Hf & Hs) Hb Hd. split; [exact Hle|].
  exists (f :: new). cbn [set_files history files List.hd].
  split; [now rewrite Hh|]. split; [reflexivity|].
  intros s [<- | [<- | Hin]].
  - right. now exists body.
  - right. now exists body.
  - apply Hs. now right.
Qed.

Lemma dest_safe_write (tmp : string) (data : bytes) (w : world) :
  tmp <> d -> dest_safe E url d w0 w ->
  dest_safe E url d w0 (copy_into tmp data (open_wb tmp w)).
Proof.
  intros Hne H. unfold copy_into, open_wb.
  apply dest_safe_other; [apply dest_safe_other; [exact H|] |].
  - now rewrite lookup_insert_ne.
  - cbn [set_files files]. now rewrite lookup_insert_ne.
Qed.

(** One pass through the [try] block. *)
Lemma dest_safe_try_body (tmp : string) (w : world) :
  tmp <> d -> dest_safe E url d w0 w ->
  dest_safe E url d w0 (snd (try_body E url tmp d w)).
Proof.
  intros Hne H.
  assert (Hcase : (exists u, url = JStr u) \/ snd (try_body E url tmp d w) = w).
  { destruct url; try (now right). left. now eexists. }
  destruct Hcase as [[u Hurl] | ->]; [|exact H].
  replace (try_body E url tmp d w) with (try_body E (JStr u) tmp d w)
    by now rewrite Hurl.
  unfold try_body.
  pose proof (dest_safe_count w H) as Hc.
  destruct (net E u (requests w)) as [err|err|written err|body err|body] eqn:Hnet;
    cbn [snd]; try exact Hc; try (now apply dest_safe_write).
  rewrite replace_after_copy.
  apply dest_safe_body with (body := body).
  - now apply dest_safe_write.
  - exists u, (requests w). destruct H as [Hle _].
    repeat split; try assumption; cbn; lia.
  - now rewrite lookup_insert_eq.
Qed.

Lemma dest_safe_attempts (tmp : string) (backoff : Q) (remaining : nat) :
  tmp <> d -> forall (attempt : nat) (w : world),
  dest_safe E url d w0 w ->
  dest_safe E url d w0 (snd (attempts E url tmp d backoff attempt remaining w)).
Proof.
  intros Hne. induction remaining as [|k IH]; intros attempt w H; cbn [attempts].
  - exact H.
  - pose proof (dest_safe_try_body tmp w Hne H) as Ht.
    destruct (try_body E url tmp d w) as [[err|] w1]; cbn [snd] in *.
    + apply IH. apply dest_safe_sleep, dest_safe_print, Ht.
    + exact Ht.
Qed.
End DestSafe.

Lemma path_exists_false_absent (w : world) (p : string) :
  path_exists w p = false -> files w !! p = None.
Proof.
  unfold path_exists. intros H.
  repeat (apply orb_false_iff in H; destruct H as [H _]).
  apply bool_decide_eq_false in H.
  destruct (files w !! p) eqn:Hp; [|reflexivity].
  exfalso. apply H. now eexists.
Qed.

(** C2: the check of the destination and the download leave at the
    destination path what was there (the download is skipped before any
    request when the path exists), nothing, or a body delivered in full;
    and this holds of every state the file store goes through, the
    destination being written only by the rename of the temporary file
    after the whole body was copied into it. *)
Theorem download_atomic (E : env) (name url : json) (dest : ppath)
  (downloaded : nat) (w : world) :
  let w' := snd (fetch E name url dest downloaded w) in
  let d := path_str dest in
  (path_exists w d = true ->
     files w' = files w /\ requests w' = requests w /\ history w' = history w)
  /\ (exists new,
        history w' = new ++ history w /\
        files w' = List.hd (files w) new /\
        forall s, In s (files w' :: new) ->
          s !! d = files w !! d \/
          exists body,
            complete_body E url (requests w) (requests w') body /\ s !! d = Some body)
  /\ (files w' !! d = None
      \/ (path_exists w d = true /\ files w' !! d = files w !! d)
      \/ exists body,
           complete_body E url (requests w) (requests w') body /\
           files w' !! d = Some body).
Proof.
  intros w' d.
  assert (Hsafe : dest_safe E url d w w').
  { subst w' d. unfold fetch.
    destruct (path_exists w (path_str dest)); cbn [snd].
    - apply dest_safe_print, dest_safe_refl.
    - pose proof (dest_safe_attempts E url (path_str dest) w (tmp_path dest)
                    DEFAULT_BACKOFF DEFAULT_RETRIES (tmp_path_ne dest) 1
                    (print (MsgDownloading name (path_str dest)) w)
                    (dest_safe_print E url _ w _ w (dest_safe_refl E url _ w))) as H.
      unfold download_file.
      destruct (attempts E url (tmp_path dest) (path_str dest) DEFAULT_BACKOFF 1
                  DEFAULT_RETRIES (print (MsgDownloading name (path_str dest)) w))
        as [[|] w2]; cbn [snd] in *; apply dest_safe_print, H. }
  split; [|split].
  - intros Hex. subst w' d. unfold fetch. rewrite Hex. cbn. auto.
  - destruct Hsafe as (_ & new & Hh & Hf & Hs). exists new. auto.
  - destruct Hsafe as (_ & new & Hh & Hf & Hs).
    destruct (Hs (files w') (or_introl eq_refl)) as [Hsame | Hbody].
    + destruct (path_exists w d) eqn:Hex.
      * right. left. auto.
      * left. rewrite Hsame. now apply path_exists_false_absent.
    + right. right. exact Hbody.
Qed.

Lemma download_atomic_witness :
  files after_download !! "models/embeddings/a.bin" = Some [Byte.x01]
  /\ path_exists after_download "models/embeddings/a.bin" = true
  /\ files (snd (fetch refusing_env (p_name plan_a) (p_url plan_a) (p_dest plan_a) 1
                   after_download))
     = files after_download.
Proof.
  assert (Hex : path_exists after_download (path_str (p_dest plan_a)) = true)
    by (vm_compute; reflexivity).
  split; [vm_compute; reflexivity|]. split; [exact Hex|].
  exact (proj1 (proj1 (download_atomic refusing_env (p_name plan_a) (p_url plan_a)
                         (p_dest plan_a) 1 after_download) Hex)).
Defined.

(** ** The retry loop *)

Lemma replace_file_out (src dst : string) (w : world) :
  out (replace_file src dst w) = out w.
Proof. unfold replace_file. now destruct (files w !! src). Qed.

Lemma replace_file_requests (src dst : string) (w : world) :
  requests (replace_file src dst w) = requests w.
Proof. unfold replace_file. now destruct (files w !! src). Qed.

Lemma replace_file_dirs (src dst : string) (w : world) :
  dirs (replace_file src dst w) = dirs w.
Proof. unfold replace_file. now destruct (files w !! src). Qed.

Lemma try_body_out (E : env) (url : json) (tmp d : string) (w : world) :
  out (snd (try_body E url tmp d w)) = out w.
Proof.
  unfold try_body. destruct url; try reflexivity.
  destruct (net E s (requests w)); cbn [snd]; try reflexivity.
  now rewrite replace_file_out.
Qed.

Lemma try_body_dirs (E : env) (url : json) (tmp d : string) (w : world) :
  dirs (snd (try_body E url tmp d w)) = dirs w.
Proof.
  unfold try_body. destruct url; try reflexivity.
  destruct (net E s (requests w)); cbn [snd]; try reflexivity.
  now rewrite replace_file_dirs.
Qed.

Lemma try_body_requests (E : env) (url : json) (tmp d : string) (w : world) :
  requests w <= requests (snd (try_body E url tmp d w)) <= S (requests w).
Proof.
  unfold try_body. destruct url; cbn [snd]; try lia.
  destruct (net E s (requests w)); cbn [snd]; try rewrite replace_file_requests;
    cbn; lia.
Qed.

(** A pass that raises: the destination is as before and the temporary
    file is as [tmp_step] says. *)
Lemma try_body_raises (E : env) (url : json) (tmp d : string) (w : world)
  (err : string) :
  tmp <> d ->
  fst (try_body E url tmp d w) = Some err ->
  let w1 := snd (try_body E url tmp d w) in
  files w1 !! d = files w !! d
  /\ (forall u, url = JStr u ->
        requests w1 = S (requests w) /\
        files w1 !! tmp = tmp_step (files w !! tmp) (net E u (requests w)))
  /\ ((forall u, url <> JStr u) -> w1 = w).
Proof.
  intros Hne. unfold try_body.
  destruct url as [| | | |u| |]; cbn [fst snd]; intros Herr;
    try (split; [reflexivity | split; [intros u' Hu; discriminate Hu | reflexivity]]).
  destruct (net E u (requests w)) as [e|e|written e|body e|body] eqn:Hnet;
    cbn [fst snd] in *; try discriminate Herr.
  all: split; [| split; [intros u' Hu; injection Hu as <-; rewrite Hnet; split; [reflexivity|]
                       | intros Hno; exfalso; now apply (Hno u)]].
  all: cbn [copy_into open_wb set_files count_request files tmp_step];
    rewrite ?lookup_insert_eq; try reflexivity.
  all: now rewrite !lookup_insert_ne.
Qed.

Lemma rev_failure_log_cons (backoff : Q) (attempt : nat) (err : string)
  (errs : list string) (rest : list event) :
  List.rev (failure_log backoff attempt (err :: errs)) ++ rest
  = List.rev (failure_log backoff (S attempt) errs)
    ++ Sleep (backoff * inject_Z (Z.of_nat attempt))
       :: Print (MsgAttemptFailed attempt err) :: rest.
Proof.
  cbn [failure_log List.rev]. now rewrite <- !List.app_assoc.
Qed.

(** What the loop prints, how long it sleeps and how many requests it
    sends. *)
Lemma attempts_log (E : env) (url : json) (tmp d : string) (backoff : Q)
  (remaining : nat) :
  forall (attempt : nat) (w : world),
  let r := attempts E url tmp d backoff attempt remaining w in
  exists errs,
    out (snd r) = List.rev (failure_log backoff attempt errs) ++ out w
    /\ (fst r = false -> List.length errs = remaining)
    /\ (fst r = true -> List.length errs < remaining)
    /\ requests (snd r) <= requests w + List.length errs + (if fst r then 1 else 0)
    /\ dirs (snd r) = dirs w.
Proof.
  induction remaining as [|k IH]; intros attempt w; cbn [attempts].
  - exists []. cbn. repeat split; try lia; try discriminate.
  - pose proof (try_body_out E url tmp d w) as Hout.
    pose proof (try_body_requests E url tmp d w) as Hreq.
    pose proof (try_body_dirs E url tmp d w) as Hdirs.
    destruct (try_body E url tmp d w) as [[err|] w1]; cbn [snd] in *.
    + specialize (IH (S attempt)
                    (sleep (backoff * inject_Z (Z.of_nat attempt))
                       (print (MsgAttemptFailed attempt err) w1))).
      cbn zeta in IH. destruct IH as (errs & Ho & Hf & Ht & Hr & Hd).
      exists (err :: errs). rewrite rev_failure_log_cons, <- Hout.
      split; [exact Ho|]. cbn [List.length].
      split; [intros Hfalse; f_equal; now apply Hf|].
      split; [intros Htrue; apply Ht in Htrue; lia|].
      split; [cbn in Hr; lia|]. now rewrite Hd.
    + exists []. cbn [fst snd failure_log List.rev List.length List.app].
      repeat split; try assumption; try discriminate; try lia.
Qed.

(** When the loop gives up, the destination is as before and the
    temporary file holds what the last attempt that opened it wrote. *)
Lemma attempts_give_up (E : env) (url : json) (tmp d : string) (backoff : Q)
  (remaining : nat) :
  tmp <> d ->
  forall (attempt : nat) (w : world),
  let r := attempts E url tmp d backoff attempt remaining w in
  fst r = false ->
  files (snd r) !! d = files w !! d
  /\ (forall u, url = JStr u ->
        files (snd r) !! tmp
        = tmp_after (files w !! tmp)
            (List.map (fun k => net E u (requests w + k)) (List.seq 0 remaining)))
  /\ ((forall u, url <> JStr u) -> files (snd r) = files w).
Proof.
  intros Hne. induction remaining as [|k IH]; intros attempt w; cbn [attempts].
  - intros _. cbn. auto.
  - pose proof (try_body_raises E url tmp d w) as Hraise.
    destruct (try_body E url tmp d w) as [[err|] w1]; cbn [fst snd] in *;
      [|discriminate].
    specialize (Hraise err Hne eq_refl). cbn zeta in Hraise.
    destruct Hraise as (Hd & Hstr & Hother).
    intros Hfalse.
    specialize (IH (S attempt)
                  (sleep (backoff * inject_Z (Z.of_nat attempt))
                     (print (MsgAttemptFailed attempt err) w1)) Hfalse).
    cbn [sleep print files requests] in IH.
    destruct IH as (IHd & IHstr & IHother).
    split; [now rewrite IHd|]. split.
    + intros u Hu. destruct (Hstr u Hu) as [Hreq Htmp].
      rewrite (IHstr u Hu), Htmp, Hreq.
      cbn [List.seq List.map tmp_after List.fold_left].
      rewrite Nat.add_0_r, <- List.seq_shift, List.map_map.
      unfold tmp_after. f_equal.
      apply List.map_ext. intros a. f_equal. lia.
    + intros Hno. rewrite (IHother Hno). now rewrite (Hother Hno).
Qed.

Lemma tmp_after_is_Some (before : option bytes) (os : list attempt) :
  is_Some before -> is_Some (tmp_after before os).
Proof.
  unfold tmp_after. revert before.
  induction os as [|o os IH]; intros before H; cbn [List.fold_left]; [exact H|].
  apply IH. destruct o; cbn [tmp_step]; try exact H; now eexists.
Qed.

Lemma ensure_dir_ok (E : env) (p : ppath) (w : world) :
  mkdir_fails E (path_str p) = false ->
  ensure_dir E p w = (Ok tt, snd (ensure_dir E p w))
  /\ files (snd (ensure_dir E p w)) = files w
  /\ requests (snd (ensure_dir E p w)) = requests w
  /\ out (snd (ensure_dir E p w)) = out w
  /\ history (snd (ensure_dir E p w)) = history w
  /\ dirs (snd (ensure_dir E p w)) = dirs w ∪ list_to_set (dir_chain p).
Proof. intros H. unfold ensure_dir. rewrite H. cbn. auto 10. Qed.

Lemma try_body_string (E : env) (u tmp d : string) (w : world) :
  fst (try_body E (JStr u) tmp d w) = error_of (net E u (requests w))
  /\ requests (snd (try_body E (JStr u) tmp d w)) = S (requests w)
  /\ out (snd (try_body E (JStr u) tmp d w)) = out w.
Proof.
  split; [|split; [|apply try_body_out]].
  - unfold try_body. now destruct (net E u (requests w)).
  - unfold try_body. destruct (net E u (requests w)); cbn [snd];
      try rewrite replace_file_requests; reflexivity.
Qed.

(** The loop on a string URL, read off what the requests meet. *)
Lemma attempts_outcomes (E : env) (u tmp d : string) (backoff : Q) (remaining : nat) :
  forall (attempt : nat) (w : world),
  let os := List.map (fun k => net E u (requests w + k)) (List.seq 0 remaining) in
  let r := attempts E (JStr u) tmp d backoff attempt remaining w in
  fst r = any_completes os
  /\ requests (snd r)
     = requests w + List.length (leading_errors os) + (if any_completes os then 1 else 0)
  /\ out (snd r) = List.rev (failure_log backoff attempt (leading_errors os)) ++ out w.
Proof.
  induction remaining as [|k IH]; intros attempt w; cbn [attempts].
  - cbn. split; [reflexivity | split; [lia | reflexivity]].
  - destruct (try_body_string E u tmp d w) as (Hfst & Hreq & Hout).
    cbn [List.seq List.map]. rewrite Nat.add_0_r.
    assert (Hshift : List.map (fun k => net E u (requests w + k)) (List.seq 1 k)
                     = List.map (fun k => net E u (S (requests w) + k)) (List.seq 0 k)).
    { rewrite <- List.seq_shift, List.map_map. apply List.map_ext.
      intros a. f_equal. lia. }
    rewrite Hshift.
    destruct (try_body E (JStr u) tmp d w) as [[err|] w1]; cbn [fst snd] in *.
    + specialize (IH (S attempt)
                    (sleep (backoff * inject_Z (Z.of_nat attempt))
                       (print (MsgAttemptFailed attempt err) w1))).
      cbn zeta in IH. cbn [sleep print requests out] in IH. rewrite Hreq, Hout in IH.
      destruct IH as (IHf & IHr & IHo).
      cbn [any_completes existsb leading_errors]. rewrite <- Hfst.
      cbn [orb List.length].
      split; [exact IHf|]. split; [rewrite IHr; unfold any_completes; lia|].
      rewrite IHo. now rewrite rev_failure_log_cons.
    + cbn [any_completes existsb leading_errors]. rewrite <- Hfst.
      cbn [orb List.length failure_log List.rev List.app].
      split; [reflexivity|]. split; [lia | exact Hout].
Qed.

Lemma leading_errors_all (os : list attempt) :
  any_completes os = false -> List.length (leading_errors os) = List.length os.
Proof.
  unfold any_completes. induction os as [|o rest IH]; cbn [existsb leading_errors];
    [reflexivity|].
  destruct (error_of o); cbn [orb]; [|discriminate].
  intros H. cbn [List.length]. now rewrite IH.
Qed.

Lemma leading_errors_length (os : list attempt) :
  List.length (leading_errors os) + (if any_completes os then 1 else 0)
  <= List.length os.
Proof.
  unfold any_completes. induction os as [|o rest IH]; cbn [existsb leading_errors List.length];
    [lia|].
  destruct (error_of o); cbn [orb List.length]; [|lia].
  destruct (existsb _ rest); lia.
Qed.

(** C6: [download_file] with its default arguments makes at most three
    attempts, one request each, and stops at the first that completes: it
    returns [True] exactly when one of the three requests completes.  For
    each attempt that fails before that it prints the attempt number and
    the error the attempt met and sleeps 1.5 times the attempt number.
    When all three fail the destination is as before.  For an entry of the
    run all of whose attempts fail, "Failed to download" is printed after
    the three failure lines, no file is at the destination, and the loop
    goes on with the next entry. *)
Theorem retry_policy (E : env) :
  (forall (u : string) (dest : ppath) (w : world),
     let os := three_attempts E u w in
     let r := download_file E (JStr u) dest DEFAULT_RETRIES DEFAULT_BACKOFF w in
     fst r = any_completes os
     /\ requests (snd r)
        = requests w + List.length (leading_errors os)
          + (if any_completes os then 1 else 0)
     /\ requests (snd r) <= requests w + 3
     /\ out (snd r) = List.rev (failure_log (3 # 2) 1 (leading_errors os)) ++ out w
     /\ (any_completes os = false ->
         List.length (leading_errors os) = 3
         /\ files (snd r) !! path_str dest = files w !! path_str dest))
  /\ (forall (dest_root : string) (entry : json) (p : plan) (u : string)
            (downloaded : nat) (w : world) (rest : list json),
        resolve_entry dest_root entry = Ok (Some p) ->
        p_url p = JStr u ->
        mkdir_fails E (path_str (p_mkdir p)) = false ->
        let w1 := snd (ensure_dir E (p_mkdir p) w) in
        path_exists w1 (path_str (p_dest p)) = false ->
        stat_fails E (path_str (p_dest p)) = false ->
        any_completes (three_attempts E u w) = false ->
        let w' := snd (process_entry E dest_root entry downloaded w) in
        fst (process_entry E dest_root entry downloaded w) = Ok downloaded
        /\ out w'
           = Print (MsgFailed (JStr u))
             :: List.rev (failure_log (3 # 2) 1 (leading_errors (three_attempts E u w)))
             ++ Print (MsgDownloading (p_name p) (path_str (p_dest p))) :: out w
        /\ requests w' = requests w + 3
        /\ files w' !! path_str (p_dest p) = None
        /\ run_entries E dest_root (entry :: rest) downloaded w
           = run_entries E dest_root rest downloaded w').
Proof.
  assert (Hdl : forall (u : string) (dest : ppath) (w : world),
     let os := three_attempts E u w in
     let r := download_file E (JStr u) dest DEFAULT_RETRIES DEFAULT_BACKOFF w in
     fst r = any_completes os
     /\ requests (snd r)
        = requests w + List.length (leading_errors os)
          + (if any_completes os then 1 else 0)
     /\ requests (snd r) <= requests w + 3
     /\ out (snd r) = List.rev (failure_log (3 # 2) 1 (leading_errors os)) ++ out w
     /\ (any_completes os = false ->
         List.length (leading_errors os) = 3
         /\ files (snd r) !! path_str dest = files w !! path_str dest)).
  { intros u dest w os r. subst r os. unfold download_file, DEFAULT_RETRIES.
    destruct (attempts_outcomes E u (tmp_path dest) (path_str dest) DEFAULT_BACKOFF 3 1 w)
      as (Hf & Hr & Ho).
    cbn zeta in Hf, Hr, Ho. cbn [List.seq List.map] in Hf, Hr, Ho.
    rewrite Nat.add_0_r in Hf, Hr, Ho. fold (three_attempts E u w) in Hf, Hr, Ho.
    pose proof (leading_errors_length (three_attempts E u w)) as Hlen.
    cbn [three_attempts List.length] in Hlen. fold (three_attempts E u w) in Hlen.
    split; [exact Hf|]. split; [exact Hr|]. split; [lia|]. split; [exact Ho|].
    intros Hnone. split.
    - now rewrite (leading_errors_all _ Hnone).
    - apply (attempts_give_up E (JStr u) (tmp_path dest) (path_str dest) DEFAULT_BACKOFF 3
               (tmp_path_ne dest) 1 w). now rewrite Hf. }
  split; [exact Hdl|].
  intros dest_root entry p u downloaded w rest Hres Hu Hmk w1 Hex Hstat Hnone w'.
  destruct (ensure_dir_ok E (p_mkdir p) w Hmk) as (Hens & Hfiles & Hreq & Hout & _).
  fold w1 in Hens, Hfiles, Hreq, Hout.
  assert (Hsame : three_attempts E u (print (MsgDownloading (p_name p) (path_str (p_dest p))) w1)
                  = three_attempts E u w).
  { unfold three_attempts. cbn [print requests]. now rewrite Hreq. }
  destruct (Hdl u (p_dest p) (print (MsgDownloading (p_name p) (path_str (p_dest p))) w1))
    as (Hf & Hr & _ & Ho & Hgive).
  cbn zeta in Hf, Hr, Ho, Hgive. rewrite Hsame in Hf, Hr, Ho, Hgive.
  rewrite Hnone in Hf, Hr. destruct (Hgive Hnone) as [Hlen Hdest].
  assert (Hproc : process_entry E dest_root entry downloaded w
                  = (Ok downloaded,
                     print (MsgFailed (JStr u))
                       (snd (download_file E (JStr u) (p_dest p) DEFAULT_RETRIES
                               DEFAULT_BACKOFF
                               (print (MsgDownloading (p_name p) (path_str (p_dest p))) w1))))).
  { unfold process_entry. rewrite Hres, Hens. unfold dest_exists. rewrite Hex, Hstat.
    unfold fetch. rewrite Hex, Hu.
    destruct (download_file E (JStr u) (p_dest p) DEFAULT_RETRIES DEFAULT_BACKOFF _)
      as [ok w2]. cbn [fst] in Hf. now subst ok. }
  subst w'. rewrite Hproc. cbn [fst snd print out requests files].
  split; [reflexivity|]. split; [|split; [|split]].
  - rewrite Ho. cbn [print out]. now rewrite Hout.
  - rewrite Hr, Hlen. cbn [print requests]. rewrite Hreq. lia.
  - rewrite Hdest. cbn [print files]. now apply path_exists_false_absent.
  - cbn [run_entries]. now rewrite Hproc.
Qed.

Lemma retry_policy_witness :
  resolve_entry "models" entry_a = Ok (Some plan_a)
  /\ fst (process_entry refusing_env "models" entry_a 0 empty_world) = Ok 0
  /\ files (snd (process_entry refusing_env "models" entry_a 0 empty_world))
       !! "models/embeddings/a.bin" = None
  /\ out (snd (process_entry refusing_env "models" entry_a 0 empty_world))
     = [Print (MsgFailed (JStr "http://h/a.bin"));
        Sleep (9 # 2); Print (MsgAttemptFailed 3 "refused");
        Sleep (6 # 2); Print (MsgAttemptFailed 2 "refused");
        Sleep (3 # 2); Print (MsgAttemptFailed 1 "refused");
        Print (MsgDownloading (JStr "a.bin") "models/embeddings/a.bin")]
  /\ fst (download_file third_time_env (JStr "http://h/a.bin") (p_dest plan_a)
            DEFAULT_RETRIES DEFAULT_BACKOFF empty_world) = true
  /\ out (snd (download_file third_time_env (JStr "http://h/a.bin") (p_dest plan_a)
                 DEFAULT_RETRIES DEFAULT_BACKOFF empty_world))
     = [Sleep (6 # 2); Print (MsgAttemptFailed 2 "reset");
        Sleep (3 # 2); Print (MsgAttemptFailed 1 "refused")].
Proof.
  destruct (proj2 (retry_policy refusing_env) "models" entry_a plan_a "http://h/a.bin"
              0 empty_world [] eq_refl eq_refl eq_refl eq_refl eq_refl eq_refl)
    as (Hfst & Hout & _ & Hnone & _).
  destruct (proj1 (retry_policy third_time_env) "http://h/a.bin" (p_dest plan_a) empty_world)
    as (Hok & _ & _ & Hlog & _).
  split; [reflexivity|]. split; [exact Hfst|]. split; [exact Hnone|].
  split; [rewrite Hout; reflexivity|]. split; [rewrite Hok; reflexivity|].
  rewrite Hlog. reflexivity.
Defined.

(** C10 (as amended): when [download_file] gives up, the destination is as
    it was before the call (not created when it was absent), and the
    temporary file is never deleted: it holds what the last attempt that
    opened it wrote (in particular the partial body of the last attempt
    when that one broke during the copy), and it is as it was before the
    call, absent if it was absent, when no attempt got as far as opening
    it. *)
Theorem failed_download_leaves_tmp (E : env) (url : json) (dest : ppath) (w : world) :
  let r := download_file E url dest DEFAULT_RETRIES DEFAULT_BACKOFF w in
  fst r = false ->
  files (snd r) !! path_str dest = files w !! path_str dest
  /\ (is_Some (files w !! tmp_path dest) -> is_Some (files (snd r) !! tmp_path dest))
  /\ (forall u, url = JStr u ->
        files (snd r) !! tmp_path dest
        = tmp_after (files w !! tmp_path dest)
            [net E u (requests w); net E u (requests w + 1); net E u (requests w + 2)])
  /\ (forall u written err, url = JStr u ->
        net E u (requests w + 2) = CopyFails written err ->
        files (snd r) !! tmp_path dest = Some written)
  /\ ((forall u, url <> JStr u) -> files (snd r) = files w).
Proof.
  intros r Hfalse. subst r. unfold download_file, DEFAULT_RETRIES in *.
  destruct (attempts_give_up E url (tmp_path dest) (path_str dest) DEFAULT_BACKOFF 3
              (tmp_path_ne dest) 1 w Hfalse) as (Hd & Hstr & Hother).
  cbn [List.seq List.map] in Hstr. rewrite Nat.add_0_r in Hstr.
  split; [exact Hd|]. split; [|split; [exact Hstr | split; [|exact Hother]]].
  - intros Hsome.
    assert (Hcase : (exists u, url = JStr u) \/ (forall u, url <> JStr u)).
    { destruct url; try (right; intros u' Hu; discriminate Hu). left. now eexists. }
    destruct Hcase as [[u Hu] | Hno].
    + rewrite (Hstr u Hu). now apply tmp_after_is_Some.
    + now rewrite (Hother Hno).
  - intros u written err Hu Hlast. rewrite (Hstr u Hu).
    unfold tmp_after. cbn [List.fold_left]. rewrite Hlast. reflexivity.
Qed.

Lemma failed_download_leaves_tmp_witness :
  fst (download_file breaking_env (JStr "http://h/a.bin") (p_dest plan_a)
         DEFAULT_RETRIES DEFAULT_BACKOFF empty_world) = false
  /\ files (snd (download_file breaking_env (JStr "http://h/a.bin") (p_dest plan_a)
                   DEFAULT_RETRIES DEFAULT_BACKOFF empty_world))
       !! "models/embeddings/a.bin" = None
  /\ files (snd (download_file breaking_env (JStr "http://h/a.bin") (p_dest plan_a)
                   DEFAULT_RETRIES DEFAULT_BACKOFF empty_world))
       !! "models/embeddings/a.bin.tmp" = Some [Byte.x05; Byte.x06].
Proof.
  split; [reflexivity|].
  destruct (failed_download_leaves_tmp breaking_env (JStr "http://h/a.bin")
              (p_dest plan_a) empty_world eq_refl) as (Hd & _ & _ & Hlast & _).
  split; [exact Hd|].
  exact (Hlast "http://h/a.bin" [Byte.x05; Byte.x06] "reset" eq_refl eq_refl).
Defined.

(** C10 as stated fails: when the connection is refused at every attempt
    the download gives up and no temporary file is left. *)
Lemma refused_download_leaves_no_tmp :
  fst (download_file refusing_env (JStr "http://h/a.bin") (p_dest plan_a)
         DEFAULT_RETRIES DEFAULT_BACKOFF empty_world) = false
  /\ files (snd (download_file refusing_env (JStr "http://h/a.bin") (p_dest plan_a)
                   DEFAULT_RETRIES DEFAULT_BACKOFF empty_world))
       !! tmp_path (p_dest plan_a) = None
  /\ tmp_path (p_dest plan_a) = "models/embeddings/a.bin.tmp".
Proof. repeat split. Qed.

(** ** The manifest loader *)

(** C5: a mapping with a "models" key holding a sequence gives that
    sequence, in its order; a sequence gives itself; a mapping without such
    a "models" sequence gives its values; and this sequence is what the
    loop of [main] runs over. *)
Theorem manifest_entries_dispatch :
  (forall kv l, dict_lookup kv "models" = Some (JList l) ->
                manifest_entries (JDict kv) = Some l)
  /\ (forall l, manifest_entries (JList l) = Some l)
  /\ (forall kv, (forall l, dict_lookup kv "models" <> Some (JList l)) ->
                 manifest_entries (JDict kv) = Some (dict_values kv))
  /\ (forall E prog snapshot_path dest_root more w data entries,
        read_json E snapshot_path = Ok data ->
        manifest_entries data = Some entries ->
        main E (prog :: snapshot_path :: dest_root :: more) w
        = match run_entries E dest_root entries 0
                  (print (MsgFound (List.length entries)) w) with
          | (Raise e, w2) => (Uncaught e, w2)
          | (Ok n, w2) => (Exit 0, print (MsgFinished n) w2)
          end).
Proof.
  split; [|split; [|split]].
  - intros kv l H. cbn [manifest_entries]. now rewrite H.
  - reflexivity.
  - intros kv H. cbn [manifest_entries].
    destruct (dict_lookup kv "models") as [v|] eqn:Hv; [|reflexivity].
    destruct v; try reflexivity. exfalso. now apply (H l).
  - intros E prog snapshot_path dest_root more w data entries Hread Hent.
    cbn [main]. now rewrite Hread, Hent.
Qed.

Lemma manifest_entries_dispatch_witness :
  manifest_entries (JDict [("version", JInt 1); ("models", JList [entry_m; entry_a])])
    = Some [entry_m; entry_a]
  /\ manifest_entries (JDict [("x", entry_m); ("models", JStr "none"); ("y", entry_a)])
     = Some [entry_m; JStr "none"; entry_a]
  /\ fst (main refusing_env example_argv empty_world) = Exit 0.
Proof.
  destruct manifest_entries_dispatch as (Hmodels & _ & Hvalues & Hmain).
  split; [apply Hmodels; reflexivity|].
  split; [apply Hvalues; intros l; discriminate|].
  unfold example_argv.
  rewrite (Hmain refusing_env _ _ _ _ empty_world (JList [entry_a]) [entry_a]
             eq_refl eq_refl).
  reflexivity.
Defined.

(** C8: a snapshot that is neither a mapping nor a sequence makes [main]
    print the complaint and exit with status 1; nothing is requested and
    the file store is not touched. *)
Theorem unrecognized_manifest_aborts (E : env) (prog snapshot_path dest_root : string)
  (more : list string) (w : world) (data : json) :
  read_json E snapshot_path = Ok data ->
  (forall kv, data <> JDict kv) ->
  (forall l, data <> JList l) ->
  let r := main E (prog :: snapshot_path :: dest_root :: more) w in
  r = (Exit 1, print MsgUnrecognized w)
  /\ exit_code (fst r) = 1%Z
  /\ requests (snd r) = requests w
  /\ files (snd r) = files w
  /\ history (snd r) = history w.
Proof.
  intros Hread Hd Hl r. subst r. cbn [main]. rewrite Hread.
  destruct data; cbn; auto 6.
  - exfalso. now apply (Hl l).
  - exfalso. now apply (Hd kv).
Qed.

Lemma unrecognized_manifest_aborts_witness :
  main (scripted_env [] JNull) example_argv empty_world
    = (Exit 1, print MsgUnrecognized empty_world)
  /\ exit_code (fst (main (scripted_env [] (JStr "models")) example_argv empty_world)) = 1%Z.
Proof.
  split.
  - apply (unrecognized_manifest_aborts (scripted_env [] JNull)
             "import_models.py" "snapshot.json" "models" [] empty_world JNull eq_refl);
      intros; discriminate.
  - apply (unrecognized_manifest_aborts (scripted_env [] (JStr "models"))
             "import_models.py" "snapshot.json" "models" [] empty_world (JStr "models")
             eq_refl); intros; discriminate.
Defined.

(** ** Resolution of an entry *)

Lemma entry_url_dict (kv : list (string * json)) :
  entry_url (JDict kv)
  = Ok (py_or (dict_get kv "download_url")
          (py_or (dict_get kv "url")
             (py_or (dict_get kv "file_url") (dict_get kv "location")))).
Proof. reflexivity. Qed.

Lemma dict_get_absent (kv : list (string * json)) (k : string) :
  dict_lookup kv k = None -> dict_get kv k = JNull.
Proof. unfold dict_get. now intros ->. Qed.

(** C7 (as amended): the URL of an entry is the first value, among the
    fields download_url, url, file_url and location in this order, that is
    true in Python's sense (an empty string, like null, false, zero and
    an empty sequence or mapping, is passed over); when no field holds such
    a value, in particular when none of the fields is present, the entry is
    skipped with a printed diagnostic and the loop goes on with the next
    entry. *)
Theorem url_resolution (kv : list (string * json)) :
  (forall v, first_truthy kv URL_KEYS = Some v ->
     entry_url (JDict kv) = Ok v /\ truthy v = true
     /\ forall dest_root p, resolve_entry dest_root (JDict kv) = Ok (Some p) -> p_url p = v)
  /\ (first_truthy kv URL_KEYS = None ->
      forall E dest_root downloaded w rest,
        process_entry E dest_root (JDict kv) downloaded w
          = (Ok downloaded, print (MsgSkipNoUrl (JDict kv)) w)
        /\ run_entries E dest_root (JDict kv :: rest) downloaded w
           = run_entries E dest_root rest downloaded (print (MsgSkipNoUrl (JDict kv)) w))
  /\ ((forall k, In k URL_KEYS -> dict_lookup kv k = None) ->
      first_truthy kv URL_KEYS = None).
Proof.
  assert (Hchain :
    match first_truthy kv URL_KEYS with
    | Some v => entry_url (JDict kv) = Ok v /\ truthy v = true
    | None => exists v, entry_url (JDict kv) = Ok v /\ truthy v = false
    end).
  { rewrite entry_url_dict. unfold first_truthy, URL_KEYS, py_or.
    cbn [List.map List.find].
    destruct (truthy (dict_get kv "download_url")) eqn:Ha; [auto|].
    destruct (truthy (dict_get kv "url")) eqn:Hb; [auto|].
    destruct (truthy (dict_get kv "file_url")) eqn:Hc; [auto|].
    destruct (truthy (dict_get kv "location")) eqn:Hd; [auto|].
    eexists. split; [reflexivity | exact Hd]. }
  split; [|split].
  - intros v Hv. rewrite Hv in Hchain. destruct Hchain as [Hurl Htrue].
    split; [exact Hurl|]. split; [exact Htrue|].
    intros dest_root p. unfold resolve_entry. rewrite Hurl. cbn [bind entry_name entry_rel_path entry_get].
    rewrite Htrue. cbn [negb].
    destruct (if negb (truthy (py_or (dict_get kv "name") (py_or (dict_get kv "filename") JNull)))
              then name_from_url v
              else Ok (py_or (dict_get kv "name") (py_or (dict_get kv "filename") JNull)))
      as [name|e]; cbn [bind]; [|discriminate].
    destruct (truthy (py_or (dict_get kv "path") (py_or (dict_get kv "relative_path") JNull))).
    + destruct (py_or (dict_get kv "path") (py_or (dict_get kv "relative_path") JNull));
        try discriminate. intros [= <-]. reflexivity.
    + destruct name; try discriminate. intros [= <-]. reflexivity.
  - intros Hnone E dest_root downloaded w rest. rewrite Hnone in Hchain.
    destruct Hchain as (v & Hurl & Hfalse).
    assert (Hproc : process_entry E dest_root (JDict kv) downloaded w
                    = (Ok downloaded, print (MsgSkipNoUrl (JDict kv)) w)).
    { unfold process_entry, resolve_entry. rewrite Hurl.
      cbn [bind entry_name entry_rel_path entry_get]. now rewrite Hfalse. }
    split; [exact Hproc|]. cbn [run_entries]. now rewrite Hproc.
  - intros Habsent. unfold first_truthy, URL_KEYS. cbn [List.map List.find].
    rewrite !dict_get_absent; [reflexivity | ..]; apply Habsent; cbn; auto.
Qed.

Lemma url_resolution_witness :
  entry_url entry_empty_first = Ok (JStr "http://h/a.bin")
  /\ process_entry refusing_env "models" (JDict [("name", JStr "a.bin")]) 0 empty_world
     = (Ok 0, print (MsgSkipNoUrl (JDict [("name", JStr "a.bin")])) empty_world).
Proof.
  split.
  - exact (proj1 (proj1 (url_resolution
                           [("download_url", JStr ""); ("url", JStr "http://h/a.bin")])
                    (JStr "http://h/a.bin") eq_refl)).
  - exact (proj1 (proj1 (proj2 (url_resolution [("name", JStr "a.bin")])) eq_refl
                    refusing_env "models" 0 empty_world [])).
Defined.

(** C7 as stated fails: a field that is present and holds the empty
    string is the first present value that is not null, and is not the URL
    the entry is downloaded from. *)
Lemma empty_url_field_passed_over :
  first_present [("download_url", JStr ""); ("url", JStr "http://h/a.bin")] URL_KEYS
    = Some (JStr "")
  /\ entry_url entry_empty_first = Ok (JStr "http://h/a.bin")
  /\ (exists p, resolve_entry "models" entry_empty_first = Ok (Some p)
                /\ p_url p = JStr "http://h/a.bin").
Proof. repeat split. eexists. split; reflexivity. Qed.

Lemma truthy_str (s : string) : s <> "" -> truthy (JStr s) = true.
Proof.
  intros H. cbn [truthy]. destruct (String.eqb s "") eqn:Heq; [|reflexivity].
  apply String.eqb_eq in Heq. contradiction.
Qed.

Lemma ensure_dir_idempotent (E : env) (p : ppath) (w : world) :
  ensure_dir E p (snd (ensure_dir E p w)) = ensure_dir E p w.
Proof.
  unfold ensure_dir. destruct (mkdir_fails E (path_str p)); cbn [snd];
    cbn [files dirs requests out history]; do 2 f_equal;
    now rewrite <- union_assoc_L, union_idemp_L.
Qed.

Lemma In_firstn (k : nat) (l : list string) (a : string) :
  In a (List.firstn k l) -> In a l.
Proof.
  revert l. induction k as [|k IH]; intros l; [intros []|].
  destruct l as [|x l]; [intros []|]. cbn [List.firstn].
  intros [<-|H]; [now left | right; now apply IH].
Qed.

(** What [ensure_dir] leaves when it raises. *)
Lemma ensure_dir_raises (E : env) (p : ppath) (w : world) :
  mkdir_fails E (path_str p) = true ->
  fst (ensure_dir E p w) = Raise (mkdir_error E (path_str p))
  /\ files (snd (ensure_dir E p w)) = files w
  /\ requests (snd (ensure_dir E p w)) = requests w
  /\ out (snd (ensure_dir E p w)) = out w
  /\ history (snd (ensure_dir E p w)) = history w
  /\ dirs w ⊆ dirs (snd (ensure_dir E p w))
  /\ (forall a, a ∈ dirs (snd (ensure_dir E p w)) -> a ∈ dirs w \/ In a (dir_chain p)).
Proof.
  intros H. unfold ensure_dir. rewrite H. cbn [fst snd files requests out history dirs].
  repeat (split; [reflexivity|]). split; [apply union_subseteq_l|].
  intros a Ha. apply elem_of_union in Ha. destruct Ha as [Ha|Ha]; [now left|].
  right. apply elem_of_list_to_set, list_elem_of_In in Ha. now apply In_firstn in Ha.
Qed.

(** C9 (as amended): for an entry with a URL whose first true value among
    the fields path and relative_path is a string (hence not empty), the
    destination is [Path(dest_root) / rel_path] whatever the name is, the
    classification of the name playing no part.  When [ensure_dir]
    succeeds, the parent of the destination and every directory above it
    are there before the destination is looked at, and creating them again
    changes nothing; the download step follows unless [dest.exists()]
    raises.  When the directories cannot all be created, or
    [dest.exists()] raises, the entry raises before anything is requested,
    printed or written to a file (the directories made so far stay). *)
Theorem explicit_path_precedence (E : env) (dest_root : string)
  (kv : list (string * json)) (u rel : string) (downloaded : nat) (w : world) :
  entry_url (JDict kv) = Ok (JStr u) -> u <> "" ->
  entry_rel_path (JDict kv) = Ok (JStr rel) -> rel <> "" ->
  let dest := path_join (parse_path dest_root) (parse_path rel) in
  let r := process_entry E dest_root (JDict kv) downloaded w in
  exists name,
    resolve_entry dest_root (JDict kv)
      = Ok (Some {| p_url := JStr u; p_name := name;
                    p_mkdir := parent dest; p_dest := dest |})
    /\ (mkdir_fails E (path_str (parent dest)) = false ->
        let w1 := snd (ensure_dir E (parent dest) w) in
        (forall a, In a (ancestors dest) -> a ∈ dirs w1)
        /\ files w1 = files w /\ requests w1 = requests w
        /\ ensure_dir E (parent dest) w1 = (Ok tt, w1)
        /\ (path_exists w1 (path_str dest) = true \/ stat_fails E (path_str dest) = false ->
            r = (Ok (fst (fetch E name (JStr u) dest downloaded w1)),
                 snd (fetch E name (JStr u) dest downloaded w1)))
        /\ (path_exists w1 (path_str dest) = false ->
            stat_fails E (path_str dest) = true ->
            r = (Raise OSError, w1)))
    /\ (mkdir_fails E (path_str (parent dest)) = true ->
        fst r = Raise (mkdir_error E (path_str (parent dest)))
        /\ files (snd r) = files w /\ requests (snd r) = requests w
        /\ out (snd r) = out w /\ history (snd r) = history w
        /\ dirs w ⊆ dirs (snd r)
        /\ (forall a, a ∈ dirs (snd r) -> a ∈ dirs w \/ In a (ancestors dest))).
Proof.
  intros Hurl Hu Hrel Hr dest r.
  assert (Hres : exists name,
    resolve_entry dest_root (JDict kv)
      = Ok (Some {| p_url := JStr u; p_name := name;
                    p_mkdir := parent dest; p_dest := dest |})).
  { unfold resolve_entry. rewrite Hurl, Hrel. cbn [bind entry_name entry_get].
    rewrite (truthy_str u Hu), (truthy_str rel Hr). cbn [negb name_from_url].
    destruct (truthy (py_or (dict_get kv "name") (py_or (dict_get kv "filename") JNull)));
      cbn [negb bind]; eexists; reflexivity. }
  destruct Hres as [name Hres]. exists name. split; [exact Hres|]. split.
  - intros Hmk w1.
    destruct (ensure_dir_ok E (parent dest) w Hmk) as (Hens & Hf & Hq & _ & _ & Hdirs).
    fold w1 in Hens, Hf, Hq, Hdirs.
    split; [|split; [exact Hf | split; [exact Hq | split; [|split]]]].
    + intros a Ha. rewrite Hdirs. apply elem_of_union_r, elem_of_list_to_set.
      now apply list_elem_of_In.
    + subst w1. rewrite ensure_dir_idempotent. exact Hens.
    + intros Hcheck. subst r. unfold process_entry. rewrite Hres.
      cbn [p_mkdir p_name p_url p_dest]. rewrite Hens.
      assert (Hok : exists b, dest_exists E w1 (path_str dest) = Ok b).
      { unfold dest_exists. destruct (path_exists w1 (path_str dest)); [now eexists|].
        destruct Hcheck as [Hc|Hc]; [discriminate|]. rewrite Hc. now eexists. }
      destruct Hok as [b ->]. now destruct (fetch E name (JStr u) dest downloaded w1).
    + intros Hne Hstat. subst r. unfold process_entry. rewrite Hres.
      cbn [p_mkdir p_name p_url p_dest]. rewrite Hens.
      unfold dest_exists. now rewrite Hne, Hstat.
  - intros Hmk.
    destruct (ensure_dir_raises E (parent dest) w Hmk) as (He & Hrest).
    subst r. unfold process_entry. rewrite Hres. cbn [p_mkdir].
    destruct (ensure_dir E (parent dest) w) as [[[]|x] w1]; cbn [fst snd] in *;
      [discriminate|].
    cbv beta iota. cbn [fst snd]. injection He as ->. split; [reflexivity | exact Hrest].
Qed.

Lemma explicit_path_precedence_witness :
  (exists name,
     resolve_entry "models"
       (JDict [("url", JStr "http://h/x"); ("name", JStr "sd_vae.pt");
               ("path", JStr "loras/style/x.bin")])
     = Ok (Some {| p_url := JStr "http://h/x"; p_name := name;
                   p_mkdir := parse_path "models/loras/style";
                   p_dest := parse_path "models/loras/style/x.bin" |}))
  /\ fst (process_entry harsh_env "models"
            (JDict [("url", JStr "http://h/x"); ("path", JStr "locked/sub/x.bin")])
            0 empty_world) = Raise OSError
  /\ files (snd (process_entry harsh_env "models"
                   (JDict [("url", JStr "http://h/x"); ("path", JStr "locked/sub/x.bin")])
                   0 empty_world)) = ∅.
Proof.
  split.
  - destruct (explicit_path_precedence refusing_env "models"
                [("url", JStr "http://h/x"); ("name", JStr "sd_vae.pt");
                 ("path", JStr "loras/style/x.bin")]
                "http://h/x" "loras/style/x.bin" 0 empty_world eq_refl
                ltac:(discriminate) eq_refl ltac:(discriminate)) as (name & Hres & _).
    exists name. exact Hres.
  - destruct (explicit_path_precedence harsh_env "models"
                [("url", JStr "http://h/x"); ("path", JStr "locked/sub/x.bin")]
                "http://h/x" "locked/sub/x.bin" 0 empty_world eq_refl
                ltac:(discriminate) eq_refl ltac:(discriminate)) as (name & _ & _ & Hfail).
    destruct (Hfail eq_refl) as (He & Hf & _). split; [exact He | exact Hf].
Defined.

(** C9 as stated fails: an entry that supplies an empty [path] is placed
    by the classification of its name, not at [dest_root / path]. *)
Lemma empty_path_is_classified :
  dict_lookup [("download_url", JStr "http://h/x_vae.bin"); ("path", JStr "")] "path"
    = Some (JStr "")
  /\ path_str (path_join (parse_path "models") (parse_path "")) = "models"
  /\ (exists p, resolve_entry "models" entry_empty_path = Ok (Some p)
                /\ path_str (p_dest p) = "models/vae/x_vae.bin").
Proof. repeat split. eexists. split; reflexivity. Qed.

(** ** Entries that do not raise *)

Lemma str_or_falsy_py_or (a b : json) :
  str_or_falsy a = true -> str_or_falsy b = true -> str_or_falsy (py_or a b) = true.
Proof. unfold py_or. now destruct (truthy a). Qed.

Lemma str_or_falsy_truthy (v : json) :
  str_or_falsy v = true -> truthy v = true -> exists s, v = JStr s.
Proof.
  destruct v; cbn [str_or_falsy]; intros H Ht; try (rewrite Ht in H; discriminate H).
  now eexists.
Qed.

Lemma well_formed_resolves (dest_root : string) (entry : json) :
  well_formed_entry entry = true -> exists r, resolve_entry dest_root entry = Ok r.
Proof.
  destruct entry as [| | | | | |kv]; cbn [well_formed_entry]; try discriminate.
  unfold FIELD_KEYS, URL_KEYS. cbn [List.app forallb].
  rewrite !andb_true_iff.
  intros (Ha & Hb & Hc & Hd & Hn & Hf & Hp & Hr & _).
  unfold resolve_entry. cbn [entry_url entry_name entry_rel_path entry_get bind].
  assert (Hurl : str_or_falsy (py_or (dict_get kv "download_url")
                   (py_or (dict_get kv "url")
                      (py_or (dict_get kv "file_url") (dict_get kv "location")))) = true)
    by (repeat apply str_or_falsy_py_or; assumption).
  assert (Hname : str_or_falsy (py_or (dict_get kv "name")
                    (py_or (dict_get kv "filename") JNull)) = true)
    by (repeat apply str_or_falsy_py_or; auto).
  assert (Hrel : str_or_falsy (py_or (dict_get kv "path")
                   (py_or (dict_get kv "relative_path") JNull)) = true)
    by (repeat apply str_or_falsy_py_or; auto).
  destruct (truthy (py_or (dict_get kv "download_url") _)) eqn:Htu; cbn [negb];
    [|eexists; reflexivity].
  destruct (str_or_falsy_truthy _ Hurl Htu) as [u ->].
  assert (Hn' : exists n,
    (if negb (truthy (py_or (dict_get kv "name") (py_or (dict_get kv "filename") JNull)))
     then name_from_url (JStr u)
     else Ok (py_or (dict_get kv "name") (py_or (dict_get kv "filename") JNull)))
    = Ok (JStr n)).
  { destruct (truthy (py_or (dict_get kv "name") _)) eqn:Htn; cbn [negb name_from_url].
    - destruct (str_or_falsy_truthy _ Hname Htn) as [n ->]. now eexists.
    - now eexists. }
  destruct Hn' as [n ->]. cbn [bind].
  destruct (truthy (py_or (dict_get kv "path") _)) eqn:Htr.
  - destruct (str_or_falsy_truthy _ Hrel Htr) as [rel ->]. now eexists.
  - now eexists.
Qed.

Lemma fetch_count (E : env) (name url : json) (dest : ppath) (downloaded : nat)
  (w : world) :
  downloaded <= fst (fetch E name url dest downloaded w) <= S downloaded.
Proof.
  unfold fetch. destruct (path_exists w (path_str dest)); cbn [fst]; [lia|].
  destruct (download_file E url dest DEFAULT_RETRIES DEFAULT_BACKOFF _) as [[|] w2];
    cbn [fst]; lia.
Qed.

Lemma outcome_lines_quiet (evs : list event) :
  Forall (fun ev => is_outcome ev = false) evs -> outcome_lines evs = [].
Proof.
  unfold outcome_lines. induction 1 as [|ev evs Hev _ IH]; cbn [List.filter];
    [reflexivity|]. now rewrite Hev.
Qed.

Lemma failure_log_quiet (backoff : Q) (errs : list string) :
  forall attempt, Forall (fun ev => is_outcome ev = false) (failure_log backoff attempt errs).
Proof.
  induction errs as [|err rest IH]; intros attempt; cbn [failure_log]; [constructor|].
  constructor; [reflexivity|]. constructor; [reflexivity | apply IH].
Qed.

Lemma outcome_lines_failure_log (backoff : Q) (attempt : nat) (errs : list string) :
  outcome_lines (List.rev (failure_log backoff attempt errs)) = [].
Proof.
  apply outcome_lines_quiet, List.Forall_rev, failure_log_quiet.
Qed.

(** What the download step prints ends with one closing line. *)
Lemma fetch_outcome (E : env) (name url : json) (dest : ppath) (downloaded : nat)
  (w : world) :
  exists new ev,
    out (snd (fetch E name url dest downloaded w)) = new ++ out w
    /\ outcome_lines new = [ev]
    /\ (ev = Print (MsgExists (path_str dest))
        \/ ev = Print (MsgDownloaded (path_str dest))
        \/ ev = Print (MsgFailed url)).
Proof.
  unfold fetch. destruct (path_exists w (path_str dest)); cbn [snd].
  - exists [Print (MsgExists (path_str dest))], (Print (MsgExists (path_str dest))).
    cbn. auto.
  - unfold download_file.
    destruct (attempts_log E url (tmp_path dest) (path_str dest) DEFAULT_BACKOFF
                DEFAULT_RETRIES 1 (print (MsgDownloading name (path_str dest)) w))
      as (errs & Ho & _).
    cbn zeta in Ho.
    destruct (attempts E url (tmp_path dest) (path_str dest) DEFAULT_BACKOFF 1
                DEFAULT_RETRIES _) as [[|] w2]; cbn [snd print out] in *.
    + exists (Print (MsgDownloaded (path_str dest))
              :: List.rev (failure_log DEFAULT_BACKOFF 1 errs)
              ++ [Print (MsgDownloading name (path_str dest))]),
             (Print (MsgDownloaded (path_str dest))).
      split; [rewrite Ho; cbn [List.app]; now rewrite <- List.app_assoc|].
      split; [|auto]. unfold outcome_lines. cbn [List.filter is_outcome].
      rewrite List.filter_app. fold (outcome_lines (List.rev (failure_log DEFAULT_BACKOFF 1 errs))).
      now rewrite outcome_lines_failure_log.
    + exists (Print (MsgFailed url)
              :: List.rev (failure_log DEFAULT_BACKOFF 1 errs)
              ++ [Print (MsgDownloading name (path_str dest))]),
             (Print (MsgFailed url)).
      split; [rewrite Ho; cbn [List.app]; now rewrite <- List.app_assoc|].
      split; [|auto]. unfold outcome_lines. cbn [List.filter is_outcome].
      rewrite List.filter_app. fold (outcome_lines (List.rev (failure_log DEFAULT_BACKOFF 1 errs))).
      now rewrite outcome_lines_failure_log.
Qed.

Lemma process_entry_ok (E : env) (dest_root : string) (entry : json)
  (downloaded : nat) (w : world) :
  well_formed_entry entry = true ->
  (forall p, mkdir_fails E p = false) ->
  (forall p, stat_fails E p = false) ->
  exists n new ev,
    fst (process_entry E dest_root entry downloaded w) = Ok n
    /\ downloaded <= n <= S downloaded
    /\ out (snd (process_entry E dest_root entry downloaded w)) = new ++ out w
    /\ outcome_lines new = [ev]
    /\ outcome_of dest_root entry ev.
Proof.
  intros Hwf Hmk Hstat. destruct (well_formed_resolves dest_root entry Hwf) as [r Hr].
  unfold process_entry, outcome_of. rewrite Hr. destruct r as [p|].
  - unfold ensure_dir. rewrite Hmk.
    match goal with |- context [fetch E _ _ _ _ ?w1] => set (w1' := w1) end.
    assert (Hok : exists b, dest_exists E w1' (path_str (p_dest p)) = Ok b).
    { unfold dest_exists. rewrite Hstat. destruct (path_exists w1' _); now eexists. }
    destruct Hok as [b ->].
    pose proof (fetch_count E (p_name p) (p_url p) (p_dest p) downloaded w1') as Hc.
    destruct (fetch_outcome E (p_name p) (p_url p) (p_dest p) downloaded w1')
      as (new & ev & Ho & Hl & Hev).
    destruct (fetch E (p_name p) (p_url p) (p_dest p) downloaded w1') as [n w2].
    exists n, new, ev. cbn [fst snd] in *. auto.
  - exists downloaded, [Print (MsgSkipNoUrl entry)], (Print (MsgSkipNoUrl entry)).
    cbn [fst snd print out]. repeat split; auto.
Qed.

Lemma run_entries_ok (E : env) (dest_root : string) (entries : list json) :
  (forall e, In e entries -> well_formed_entry e = true) ->
  (forall p, mkdir_fails E p = false) ->
  (forall p, stat_fails E p = false) ->
  forall (downloaded : nat) (w : world),
  exists n new,
    fst (run_entries E dest_root entries downloaded w) = Ok n
    /\ downloaded <= n <= downloaded + List.length entries
    /\ out (snd (run_entries E dest_root entries downloaded w)) = new ++ out w
    /\ Forall2 (outcome_of dest_root) entries (List.rev (outcome_lines new)).
Proof.
  intros Hwf Hmk Hstat. induction entries as [|e rest IH]; intros downloaded w;
    cbn [run_entries List.length].
  - exists downloaded, []. cbn [fst snd List.app outcome_lines List.filter List.rev].
    split; [reflexivity|]. split; [lia|]. split; [reflexivity | constructor].
  - destruct (process_entry_ok E dest_root e downloaded w) as (n & new1 & ev & Hn & Hle & Ho & Hl & Hev);
      [apply Hwf; now left | exact Hmk | exact Hstat |].
    destruct (process_entry E dest_root e downloaded w) as [r w1].
    cbn [fst snd] in Hn, Ho. subst r.
    destruct (IH (fun e' H => Hwf e' (or_intror H)) n w1) as (m & new2 & Hm & Hle' & Ho' & Hall).
    exists m, (new2 ++ new1).
    split; [exact Hm|]. split; [lia|].
    split; [rewrite Ho', Ho; now rewrite List.app_assoc|].
    unfold outcome_lines in *. rewrite List.filter_app, Hl, List.rev_app_distr.
    cbn [List.rev List.app]. constructor; assumption.
Qed.

(** C3 (as amended): when the snapshot is a mapping or a sequence, every
    entry is an object each of whose recognised fields is absent, false or
    a string, no directory creation fails and no [dest.exists()] raises,
    the loop goes through all the entries, whatever the requests meet: it
    prints for each entry, in order, the line that closes it (the skip of
    an entry without URL, or already exists, downloaded or failed for its
    destination and URL), and [main] exits with status 0 after printing
    the count.  Each entry is recovered locally: without URL it is skipped
    with its line; with an existing destination it is reported so; else
    it is downloaded, and counted exactly when [download_file] returns
    [True], a failed download changing neither the count nor the flow. *)
Theorem well_formed_run_exits_0 (E : env) (prog snapshot_path dest_root : string)
  (more : list string) (w : world) (data : json) (entries : list json) :
  read_json E snapshot_path = Ok data ->
  manifest_entries data = Some entries ->
  (forall e, In e entries -> well_formed_entry e = true) ->
  (forall p, mkdir_fails E p = false) ->
  (forall p, stat_fails E p = false) ->
  let run := run_entries E dest_root entries 0 (print (MsgFound (List.length entries)) w) in
  (exists n new,
     fst run = Ok n
     /\ n <= List.length entries
     /\ out (snd run) = new ++ Print (MsgFound (List.length entries)) :: out w
     /\ Forall2 (outcome_of dest_root) entries (List.rev (outcome_lines new))
     /\ main E (prog :: snapshot_path :: dest_root :: more) w
        = (Exit 0, print (MsgFinished n) (snd run))
     /\ exit_code (fst (main E (prog :: snapshot_path :: dest_root :: more) w)) = 0%Z)
  /\ (forall e downloaded w0,
        In e entries ->
        match resolve_entry dest_root e with
        | Raise _ => False
        | Ok None =>
            process_entry E dest_root e downloaded w0
            = (Ok downloaded, print (MsgSkipNoUrl e) w0)
        | Ok (Some p) =>
            let d := path_str (p_dest p) in
            let w1 := snd (ensure_dir E (p_mkdir p) w0) in
            let dl := download_file E (p_url p) (p_dest p) DEFAULT_RETRIES DEFAULT_BACKOFF
                        (print (MsgDownloading (p_name p) d) w1) in
            process_entry E dest_root e downloaded w0
            = if path_exists w1 d then (Ok downloaded, print (MsgExists d) w1)
              else if fst dl then (Ok (S downloaded), print (MsgDownloaded d) (snd dl))
              else (Ok downloaded, print (MsgFailed (p_url p)) (snd dl))
        end).
Proof.
  intros Hread Hent Hwf Hmk Hstat run.
  destruct (run_entries_ok E dest_root entries Hwf Hmk Hstat 0
              (print (MsgFound (List.length entries)) w)) as (n & new & Hn & Hle & Ho & Hall).
  fold run in Hn, Ho. split.
  - exists n, new.
    assert (Hmain : main E (prog :: snapshot_path :: dest_root :: more) w
                    = (Exit 0, print (MsgFinished n) (snd run))).
    { cbn [main]. rewrite Hread, Hent. fold run.
      destruct run as [r w2]. cbn [fst snd] in *. now subst r. }
    split; [exact Hn|]. split; [lia|]. split; [exact Ho|]. split; [exact Hall|].
    split; [exact Hmain|]. now rewrite Hmain.
  - intros e downloaded w0 Hin.
    destruct (well_formed_resolves dest_root e (Hwf e Hin)) as [res Hres].
    unfold process_entry. rewrite Hres. destruct res as [p|]; [|reflexivity].
    cbn zeta. unfold ensure_dir. rewrite Hmk. cbn [snd].
    unfold dest_exists, fetch. rewrite Hstat.
    destruct (path_exists _ (path_str (p_dest p))); [reflexivity|].
    now destruct (download_file E (p_url p) (p_dest p) DEFAULT_RETRIES DEFAULT_BACKOFF _)
      as [[|] w2].
Qed.

Lemma well_formed_run_exits_0_witness :
  fst (main refusing_env example_argv empty_world) = Exit 0
  /\ exit_code (fst (main two_runs_env example_argv empty_world)) = 0%Z.
Proof.
  split.
  - destruct (well_formed_run_exits_0 refusing_env "import_models.py" "snapshot.json"
                "models" [] empty_world (JList [entry_a]) [entry_a] eq_refl eq_refl)
      as ((n & new & _ & _ & _ & _ & Hmain & _) & _).
    + intros e [<-|[]]. reflexivity.
    + reflexivity.
    + reflexivity.
    + unfold example_argv. now rewrite Hmain.
  - destruct (well_formed_run_exits_0 two_runs_env "import_models.py" "snapshot.json"
                "models" [] empty_world (JList [entry_m; entry_m_tmp])
                [entry_m; entry_m_tmp] eq_refl eq_refl)
      as ((n & new & _ & _ & _ & _ & _ & Hcode) & _).
    + intros e [<-|[<-|[]]]; reflexivity.
    + reflexivity.
    + reflexivity.
    + exact Hcode.
Defined.

(** C3 as stated fails: a sequence holding an entry that is not an object
    makes [entry.get] raise; the exception is not caught and the process
    ends with status 1. *)
Lemma non_object_entry_aborts :
  manifest_entries (JList [JInt 5]) = Some [JInt 5]
  /\ fst (main (scripted_env [] (JList [JInt 5])) example_argv empty_world)
     = Uncaught AttributeError
  /\ exit_code (fst (main (scripted_env [] (JList [JInt 5])) example_argv empty_world))
     = 1%Z.
Proof. repeat split. Qed.

(** ** What a run keeps *)

Lemma kept_refl (p : string) (w : world) : kept p w w.
Proof. split; [auto | reflexivity]. Qed.

Lemma kept_trans (p : string) (w1 w2 w3 : world) :
  kept p w1 w2 -> kept p w2 w3 -> kept p w1 w3.
Proof. intros [Hf Hd] [Hf' Hd']. split; [auto | now transitivity (dirs w2)]. Qed.

Lemma kept_print (p : string) (m : message) (w : world) : kept p w (print m w).
Proof. split; [auto | reflexivity]. Qed.

Lemma kept_sleep (p : string) (q : Q) (w : world) : kept p w (sleep q w).
Proof. split; [auto | reflexivity]. Qed.

Lemma path_exists_kept (p : string) (w w' : world) :
  kept p w w' -> path_exists w p = true -> path_exists w' p = true.
Proof.
  intros [Hf Hd]. unfold path_exists. rewrite !orb_true_iff, !bool_decide_eq_true.
  intros [[[[H|H]|H]|H]|H]; auto 6.
Qed.

Lemma try_body_kept (E : env) (url : json) (tmp d p : string) (w : world) :
  p <> tmp -> kept p w (snd (try_body E url tmp d w)).
Proof.
  intros Hne. split; [|now rewrite try_body_dirs].
  unfold try_body. destruct url as [| | | |u| |]; cbn [snd]; auto.
  destruct (net E u (requests w)); cbn [snd]; auto.
  - cbn [copy_into open_wb set_files count_request files].
    now rewrite !lookup_insert_ne by congruence.
  - cbn [copy_into open_wb set_files count_request files].
    now rewrite !lookup_insert_ne by congruence.
  - rewrite replace_after_copy.
    cbn [copy_into open_wb set_files count_request files].
    destruct (decide (d = p)) as [->|Hd].
    + rewrite lookup_insert_eq. intros _. now eexists.
    + rewrite lookup_insert_ne by exact Hd.
      rewrite lookup_delete_ne by congruence.
      now rewrite !lookup_insert_ne by congruence.
Qed.

Lemma attempts_kept (E : env) (url : json) (tmp d p : string) (backoff : Q)
  (remaining : nat) :
  p <> tmp -> forall (attempt : nat) (w : world),
  kept p w (snd (attempts E url tmp d backoff attempt remaining w)).
Proof.
  intros Hne. induction remaining as [|k IH]; intros attempt w; cbn [attempts].
  - apply kept_refl.
  - pose proof (try_body_kept E url tmp d p w Hne) as Ht.
    destruct (try_body E url tmp d w) as [[err|] w1]; cbn [snd] in *; [|exact Ht].
    eapply kept_trans; [exact Ht|].
    eapply kept_trans; [apply kept_print|].
    eapply kept_trans; [apply kept_sleep|].
    apply IH.
Qed.

Lemma fetch_kept (E : env) (name url : json) (dest : ppath) (downloaded : nat)
  (p : string) (w : world) :
  p <> tmp_path dest -> kept p w (snd (fetch E name url dest downloaded w)).
Proof.
  intros Hne. unfold fetch. destruct (path_exists w (path_str dest)); cbn [snd].
  - apply kept_print.
  - pose proof (attempts_kept E url (tmp_path dest) (path_str dest) p DEFAULT_BACKOFF
                  DEFAULT_RETRIES Hne 1
                  (print (MsgDownloading name (path_str dest)) w)) as H.
    unfold download_file.
    destruct (attempts E url (tmp_path dest) (path_str dest) DEFAULT_BACKOFF 1
                DEFAULT_RETRIES _) as [[|] w2]; cbn [snd] in *;
      (eapply kept_trans; [apply kept_print|]);
      (eapply kept_trans; [exact H|]); apply kept_print.
Qed.

Lemma ensure_dir_kept (E : env) (q : ppath) (p : string) (w : world) :
  kept p w (snd (ensure_dir E q w)).
Proof.
  unfold ensure_dir. destruct (mkdir_fails E (path_str q)); cbn [snd];
    (split; [auto|]); cbn [dirs]; apply union_subseteq_l.
Qed.

Lemma process_entry_kept (E : env) (dest_root : string) (entry : json)
  (downloaded : nat) (p : string) (w : world) :
  (forall pl, resolve_entry dest_root entry = Ok (Some pl) -> tmp_path (p_dest pl) <> p) ->
  kept p w (snd (process_entry E dest_root entry downloaded w)).
Proof.
  intros Hne. unfold process_entry.
  destruct (resolve_entry dest_root entry) as [[pl|]|e]; cbn [snd];
    [| apply kept_print | apply kept_refl].
  pose proof (ensure_dir_kept E (p_mkdir pl) p w) as Hens.
  destruct (ensure_dir E (p_mkdir pl) w) as [[[]|e] w1]; cbn [snd] in *; [|exact Hens].
  destruct (dest_exists E w1 (path_str (p_dest pl))) as [b|e]; [|exact Hens].
  pose proof (fetch_kept E (p_name pl) (p_url pl) (p_dest pl) downloaded p w1) as Hf.
  destruct (fetch E (p_name pl) (p_url pl) (p_dest pl) downloaded w1) as [n w2].
  cbn [snd] in *. eapply kept_trans; [exact Hens|]. apply Hf.
  intros Heq. now apply (Hne pl eq_refl).
Qed.

Lemma run_entries_kept (E : env) (dest_root : string) (entries : list json) (p : string) :
  (forall e pl, In e entries -> resolve_entry dest_root e = Ok (Some pl) ->
                tmp_path (p_dest pl) <> p) ->
  forall (downloaded : nat) (w : world),
  kept p w (snd (run_entries E dest_root entries downloaded w)).
Proof.
  induction entries as [|e rest IH]; intros Hne downloaded w; cbn [run_entries].
  - apply kept_refl.
  - pose proof (process_entry_kept E dest_root e downloaded p w
                  (fun pl => Hne e pl (or_introl eq_refl))) as Hp.
    destruct (process_entry E dest_root e downloaded w) as [[n|x] w1];
      cbn [snd] in *; [|exact Hp].
    eapply kept_trans; [exact Hp|].
    apply IH. intros e' pl Hin. apply Hne. now right.
Qed.

(** C4 (as amended): an entry whose destination exists when the entry is
    processed is skipped: no request is sent and the file store is not
    touched.  In a run started on a world in which the destination exists
    (such as the world a first run left), this holds of the entry when the
    entries processed before it have not raised and none of them has this
    destination as its temporary file, the destinations being compared as
    paths with the same anchor and without [..] (so that different texts
    are different files). *)
Theorem skip_if_exists (E : env) (dest_root : string) (before : list json)
  (entry : json) (p : plan) (downloaded0 downloaded : nat) (w w1 : world) :
  run_entries E dest_root before downloaded0 w = (Ok downloaded, w1) ->
  resolve_entry dest_root entry = Ok (Some p) ->
  path_exists w (path_str (p_dest p)) = true ->
  dotdot_free (p_dest p) = true ->
  (forall e pl, In e before -> resolve_entry dest_root e = Ok (Some pl) ->
                dotdot_free (p_dest pl) = true
                /\ anchor (p_dest pl) = anchor (p_dest p)
                /\ tmp_path (p_dest pl) <> path_str (p_dest p)) ->
  let r := process_entry E dest_root entry downloaded w1 in
  requests (snd r) = requests w1
  /\ files (snd r) = files w1
  /\ history (snd r) = history w1
  /\ (mkdir_fails E (path_str (p_mkdir p)) = false ->
      r = (Ok downloaded,
           print (MsgExists (path_str (p_dest p))) (snd (ensure_dir E (p_mkdir p) w1)))).
Proof.
  intros Hrun Hres Hex _ Hne r.
  pose proof (run_entries_kept E dest_root before (path_str (p_dest p))
                (fun e pl Hin Hr => proj2 (proj2 (Hne e pl Hin Hr))) downloaded0 w)
    as Hkept.
  rewrite Hrun in Hkept. cbn [snd] in Hkept.
  pose proof (path_exists_kept _ _ _
                (kept_trans _ _ _ _ Hkept (ensure_dir_kept E (p_mkdir p) _ w1)) Hex) as Hex1.
  subst r. unfold process_entry. rewrite Hres.
  unfold ensure_dir in *. destruct (mkdir_fails E (path_str (p_mkdir p))); cbn [snd] in *.
  - repeat split; try reflexivity. discriminate.
  - unfold dest_exists, fetch. rewrite Hex1. cbn. auto.
Qed.

Lemma skip_if_exists_witness :
  fst (main two_runs_env example_argv empty_world) = Exit 0
  /\ path_exists after_first_run "models/m.tmp" = true
  /\ requests (snd (run_entries two_runs_env "models" [entry_a; entry_b] 0 after_first_run))
     = requests after_first_run + 2
  /\ requests (snd (process_entry two_runs_env "models" entry_m_tmp 2
                      (snd (run_entries two_runs_env "models" [entry_a; entry_b] 0
                              after_first_run))))
     = requests after_first_run + 2.
Proof.
  assert (Hex : path_exists after_first_run "models/m.tmp" = true)
    by (vm_compute; reflexivity).
  assert (Hrun : run_entries two_runs_env "models" [entry_a; entry_b] 0 after_first_run
                 = (Ok 2, snd (run_entries two_runs_env "models" [entry_a; entry_b] 0
                                 after_first_run)))
    by (vm_compute; reflexivity).
  assert (Hreq : requests (snd (run_entries two_runs_env "models" [entry_a; entry_b] 0
                                  after_first_run)) = requests after_first_run + 2)
    by (vm_compute; reflexivity).
  split; [vm_compute; reflexivity|]. split; [exact Hex|]. split; [exact Hreq|].
  rewrite <- Hreq.
  refine (proj1 (skip_if_exists two_runs_env "models" [entry_a; entry_b] entry_m_tmp
           {| p_url := JStr "http://h/b"; p_name := JStr "b";
              p_mkdir := {| anchor := ""; parts := ["models"] |};
              p_dest := {| anchor := ""; parts := ["models"; "m.tmp"] |} |}
           0 2 after_first_run _ Hrun _ Hex eq_refl _)).
  - vm_compute. reflexivity.
  - intros e pl [<-|[<-|[]]] [= <-]; repeat split; vm_compute; discriminate.
Defined.

(** C4 as stated fails: the destination of [entry_m_tmp] exists after the
    first run, and the second run sends a request for it all the same: the
    download of [entry_m], which comes first, has used that path as its
    temporary file and renamed it away. *)
Lemma second_run_requests_again :
  fst (main two_runs_env example_argv empty_world) = Exit 0
  /\ (exists p, resolve_entry "models" entry_m_tmp = Ok (Some p)
                /\ path_str (p_dest p) = "models/m.tmp")
  /\ path_exists after_first_run "models/m.tmp" = true
  /\ path_exists second_run_at_m_tmp "models/m.tmp" = false
  /\ requests (snd (process_entry two_runs_env "models" entry_m_tmp 1 second_run_at_m_tmp))
     = S (requests second_run_at_m_tmp)
  /\ requests (snd (main two_runs_env example_argv after_first_run))
     = requests after_first_run + 2.
Proof.
  split; [vm_compute; reflexivity|].
  split; [eexists; split; vm_compute; reflexivity|].
  split; [vm_compute; reflexivity|].
  split; [vm_compute; reflexivity|].
  split; vm_compute; reflexivity.
Qed.

(** * Further properties of the script *)

(** ** Classification *)

Lemma scan_layout_in (name folder : string) (layout : list (string * list string)) :
  scan_layout name layout = Some folder -> In folder (List.map fst layout).
Proof.
  induction layout as [|[f kws] rest IH]; cbn [scan_layout List.map fst]; [discriminate|].
  destruct (keyword_hit name kws).
  - intros [= <-]. now left.
  - intros H. right. now apply IH.
Qed.

Lemma choose_folder_in_table (filename : string) :
  In (choose_folder_by_name filename) (List.map fst DEFAULT_LAYOUT).
Proof.
  unfold choose_folder_by_name.
  destruct (scan_layout (Str.lower filename) DEFAULT_LAYOUT) as [folder|] eqn:H.
  - now apply scan_layout_in with (name := Str.lower filename).
  - now left.
Qed.

(** X1: whatever the file name, [choose_folder_by_name] returns one of the
    six folders of the table. *)
Theorem choose_folder_range (filename : string) :
  In (choose_folder_by_name filename)
     ["checkpoints"; "vae"; "diffusers"; "embeddings"; "clip"; "upscale_models"].
Proof. exact (choose_folder_in_table filename). Qed.

Lemma any_keyword_hits (layout : list (string * list string)) (name : string) :
  any_keyword layout name = existsb (fun fk => keyword_hit name (snd fk)) layout.
Proof.
  unfold any_keyword. induction layout as [|fk rest IH]; cbn [existsb]; [reflexivity|].
  now rewrite IH, keyword_hit_existsb.
Qed.

(** X2: a file name is classified as "checkpoints" exactly when a keyword
    of "checkpoints" occurs in its lower-cased form, whatever other keywords
    occur too, or when no keyword of the table occurs in it at all. *)
Theorem checkpoints_iff (filename : string) :
  choose_folder_by_name filename = "checkpoints"
  <-> keyword_hit (Str.lower filename) CHECKPOINT_KEYWORDS = true
      \/ any_keyword DEFAULT_LAYOUT (Str.lower filename) = false.
Proof.
  unfold choose_folder_by_name, CHECKPOINT_KEYWORDS.
  rewrite any_keyword_hits. unfold DEFAULT_LAYOUT.
  cbn [scan_layout existsb snd].
  destruct (keyword_hit (Str.lower filename) ["ckpt"; "safetensors"; "pt"]);
    [split; auto|].
  destruct (keyword_hit (Str.lower filename) ["vae"]);
    [split; [discriminate | intros [H|H]; discriminate H]|].
  destruct (keyword_hit (Str.lower filename) ["diffusers"; "diffuser"]);
    [split; [discriminate | intros [H|H]; discriminate H]|].
  destruct (keyword_hit (Str.lower filename) ["embeddings"; "bin"]);
    [split; [discriminate | intros [H|H]; discriminate H]|].
  destruct (keyword_hit (Str.lower filename) ["clip"]);
    [split; [discriminate | intros [H|H]; discriminate H]|].
  destruct (keyword_hit (Str.lower filename) ["upscale"; "realesrgan"]);
    [split; [discriminate | intros [H|H]; discriminate H]|].
  split; auto.
Qed.

(** ** The display name *)

Lemma before_first_has (sep : ascii) (s : string) :
  str_has sep (Str.before_first sep s) = false.
Proof.
  induction s as [|c r IH]; cbn [Str.before_first]; [reflexivity|].
  destruct (Ascii.eqb c sep) eqn:Hc; cbn [str_has]; [reflexivity|].
  now rewrite Hc, IH.
Qed.

Lemma split_on_nonempty (sep : ascii) (s : string) : Str.split_on sep s <> [].
Proof.
  destruct s as [|c r]; cbn [Str.split_on]; [discriminate|].
  destruct (Ascii.eqb c sep); [discriminate|].
  destruct (Str.split_on sep r); discriminate.
Qed.

(** A character absent from [s] is absent from every piece of [s]. *)
Lemma split_on_absent (c sep : ascii) (s : string) :
  str_has c s = false ->
  Forall (fun p => str_has c p = false) (Str.split_on sep s).
Proof.
  induction s as [|d r IH]; cbn [Str.split_on str_has].
  - intros _. constructor; [reflexivity | constructor].
  - intros H. apply orb_false_iff in H. destruct H as [Hd Hr].
    specialize (IH Hr).
    destruct (Ascii.eqb d sep).
    + constructor; [reflexivity | exact IH].
    + destruct (Str.split_on sep r) as [|p ps].
      * constructor; [cbn [str_has]; now rewrite Hd | constructor].
      * inversion IH as [|? ? Hp Hps]; subst.
        constructor; [cbn [str_has]; now rewrite Hd, Hp | exact Hps].
Qed.

(** No piece holds the separator. *)
Lemma split_on_pieces (sep : ascii) (s : string) :
  Forall (fun p => str_has sep p = false) (Str.split_on sep s).
Proof.
  induction s as [|d r IH]; cbn [Str.split_on].
  - constructor; [reflexivity | constructor].
  - destruct (Ascii.eqb d sep) eqn:Hd.
    + constructor; [reflexivity | exact IH].
    + destruct (Str.split_on sep r) as [|p ps].
      * constructor; [cbn [str_has]; now rewrite Hd | constructor].
      * inversion IH as [|? ? Hp Hps]; subst.
        constructor; [cbn [str_has]; now rewrite Hd, Hp | exact Hps].
Qed.

Lemma Forall_last (P : string -> Prop) (l : list string) (d : string) :
  Forall P l -> l <> [] -> P (List.last l d).
Proof.
  induction l as [|x l IH]; intros H Hne; [contradiction|].
  inversion H as [|? ? Hx Hl]; subst.
  destruct l as [|y l]; [exact Hx|].
  change (P (List.last (y :: l) d)). apply IH; [exact Hl | discriminate].
Qed.

(** X3: the name derived from a URL (line 103) holds neither a slash nor a
    question mark: it is what follows the last slash of the part of the
    URL before the first question mark. *)
Theorem derived_name_plain (u : string) :
  exists n,
    name_from_url (JStr u) = Ok (JStr n)
    /\ n = basename (Str.before_first "?" u)
    /\ str_has "/" n = false
    /\ str_has "?" n = false.
Proof.
  exists (basename (Str.before_first "?" u)). split; [reflexivity|]. split; [reflexivity|].
  unfold basename. split.
  - apply (Forall_last (fun p => str_has "/" p = false));
      [apply split_on_pieces | apply split_on_nonempty].
  - apply (Forall_last (fun p => str_has "?" p = false));
      [apply split_on_absent, before_first_has | apply split_on_nonempty].
Qed.

(** What [resolve_entry] gives for a mapping, line by line. *)
Lemma resolve_entry_dict (dest_root : string) (kv : list (string * json)) :
  resolve_entry dest_root (JDict kv)
  = let url := py_or (dict_get kv "download_url")
                 (py_or (dict_get kv "url")
                    (py_or (dict_get kv "file_url") (dict_get kv "location"))) in
    let name0 := py_or (dict_get kv "name") (py_or (dict_get kv "filename") JNull) in
    let rel_path := py_or (dict_get kv "path") (py_or (dict_get kv "relative_path") JNull) in
    if negb (truthy url) then Ok None
    else
      name <- (if negb (truthy name0) then name_from_url url else Ok name0) ;;
      if truthy rel_path then
        match rel_path with
        | JStr rel =>
            let dest := path_join (parse_path dest_root) (parse_path rel) in
            Ok (Some {| p_url := url; p_name := name;
                        p_mkdir := parent dest; p_dest := dest |})
        | _ => Raise TypeError
        end
      else
        match name with
        | JStr n =>
            let folder := choose_folder_by_name n in
            let dest_dir := path_join (parse_path dest_root) (parse_path folder) in
            Ok (Some {| p_url := url; p_name := name;
                        p_mkdir := dest_dir;
                        p_dest := path_join dest_dir (parse_path n) |})
        | _ => Raise AttributeError
        end.
Proof. reflexivity. Qed.

Lemma first_truthy_names (kv : list (string * json)) :
  first_truthy kv NAME_KEYS
  = if truthy (py_or (dict_get kv "name") (py_or (dict_get kv "filename") JNull))
    then Some (py_or (dict_get kv "name") (py_or (dict_get kv "filename") JNull))
    else None.
Proof.
  unfold first_truthy, NAME_KEYS, py_or. cbn [List.map List.find].
  destruct (truthy (dict_get kv "name")) eqn:Ha; [now rewrite Ha|].
  destruct (truthy (dict_get kv "filename")) eqn:Hb; [now rewrite Hb|].
  reflexivity.
Qed.

(** X4: the display name of an entry that is downloaded is the first true
    value among the fields name and filename, in this order, whatever its
    type; when neither holds a true value the URL is a string and the name
    is derived from it. *)
Theorem name_resolution (dest_root : string) (kv : list (string * json)) (p : plan) :
  resolve_entry dest_root (JDict kv) = Ok (Some p) ->
  match first_truthy kv NAME_KEYS with
  | Some v => p_name p = v
  | None => exists u, p_url p = JStr u
                      /\ p_name p = JStr (basename (Str.before_first "?" u))
  end.
Proof.
  rewrite resolve_entry_dict, first_truthy_names. cbn zeta.
  set (url := py_or (dict_get kv "download_url") _).
  set (name0 := py_or (dict_get kv "name") _).
  set (rel_path := py_or (dict_get kv "path") _).
  destruct (truthy url); cbn [negb]; [|discriminate].
  destruct (truthy name0); cbn [negb bind].
  - destruct (truthy rel_path).
    + destruct rel_path; try discriminate. now intros [= <-].
    + destruct name0; try discriminate. now intros [= <-].
  - destruct url as [| | | |u| |]; cbn [name_from_url bind]; try discriminate.
    destruct (truthy rel_path).
    + destruct rel_path; try discriminate. intros [= <-]. now exists u.
    + intros [= <-]. now exists u.
Qed.

Lemma name_resolution_witness :
  (exists p, resolve_entry "models"
               (JDict [("url", JStr "http://h/x.bin?sig=1/2"); ("filename", JStr "y.pt")])
             = Ok (Some p) /\ p_name p = JStr "y.pt")
  /\ (exists p, resolve_entry "models" (JDict [("url", JStr "http://h/x.bin?sig=1/2")])
                = Ok (Some p) /\ p_name p = JStr "x.bin").
Proof.
  split.
  - eexists. split; [reflexivity|].
    exact (name_resolution "models"
             [("url", JStr "http://h/x.bin?sig=1/2"); ("filename", JStr "y.pt")] _ eq_refl).
  - eexists. split; [reflexivity|].
    destruct (name_resolution "models" [("url", JStr "http://h/x.bin?sig=1/2")] _ eq_refl)
      as (u & Hu & Hn).
    rewrite Hn. injection Hu as <-. reflexivity.
Defined.

(** ** [download_file] beyond its default arguments *)

Lemma try_body_done (E : env) (url : json) (tmp d : string) (w : world) :
  tmp <> d ->
  fst (try_body E url tmp d w) = None ->
  exists u body,
    url = JStr u /\ net E u (requests w) = Completes body
    /\ requests (snd (try_body E url tmp d w)) = S (requests w)
    /\ files (snd (try_body E url tmp d w)) !! d = Some body
    /\ files (snd (try_body E url tmp d w)) !! tmp = None.
Proof.
  intros Hne. unfold try_body.
  destruct url as [| | | |u| |]; cbn [fst snd]; try discriminate.
  destruct (net E u (requests w)) as [e|e|written e|body e|body] eqn:Hnet;
    cbn [fst snd]; try discriminate.
  intros _. exists u, body. rewrite replace_after_copy.
  cbn [copy_into open_wb set_files count_request files requests].
  split; [reflexivity|]. split; [exact Hnet|]. split; [reflexivity|]. split.
  - now rewrite lookup_insert_eq.
  - rewrite lookup_insert_ne by congruence. now rewrite lookup_delete_eq.
Qed.

Lemma attempts_done (E : env) (url : json) (tmp d : string) (backoff : Q)
  (remaining : nat) :
  tmp <> d ->
  forall (attempt : nat) (w : world),
  let r := attempts E url tmp d backoff attempt remaining w in
  fst r = true ->
  exists u i body,
    url = JStr u /\ requests w <= i < requests w + remaining
    /\ requests (snd r) = S i
    /\ net E u i = Completes body
    /\ files (snd r) !! d = Some body
    /\ files (snd r) !! tmp = None.
Proof.
  intros Hne. induction remaining as [|k IH]; intros attempt w; cbn [attempts].
  - discriminate.
  - pose proof (try_body_done E url tmp d w Hne) as Hdone.
    pose proof (try_body_requests E url tmp d w) as Hreq.
    destruct (try_body E url tmp d w) as [[err|] w1]; cbn [fst snd] in *.
    + intros Htrue.
      destruct (IH (S attempt)
                  (sleep (backoff * inject_Z (Z.of_nat attempt))
                     (print (MsgAttemptFailed attempt err) w1)) Htrue)
        as (u & i & body & Hu & Hi & Hr & Hn & Hd & Ht).
      cbn [sleep print requests] in Hi.
      exists u, i, body. repeat split; try assumption; lia.
    + intros _. destruct (Hdone eq_refl) as (u & body & Hu & Hn & Hr & Hd & Ht).
      exists u, (requests w), body. repeat split; try assumption; lia.
Qed.

(** X5: when [download_file] returns [True], the destination holds the
    whole body of the request that completed, which is the last request
    sent and one of the first [retries] of this call, whatever was at the
    destination before; and the temporary file is gone. *)
Theorem download_success (E : env) (url : json) (dest : ppath) (retries : nat)
  (backoff : Q) (w : world) :
  let r := download_file E url dest retries backoff w in
  fst r = true ->
  exists u i body,
    url = JStr u
    /\ requests w <= i < requests w + retries
    /\ requests (snd r) = S i
    /\ net E u i = Completes body
    /\ files (snd r) !! path_str dest = Some body
    /\ files (snd r) !! tmp_path dest = None.
Proof.
  intros r. subst r. unfold download_file.
  apply attempts_done. apply tmp_path_ne.
Qed.

Lemma download_success_witness :
  files (snd (download_file
                (scripted_env [ConnectFails "refused"; Completes [Byte.x07]] JNull)
                (JStr "http://h/a.bin") (p_dest plan_a) 2 1 empty_world))
    !! tmp_path (p_dest plan_a) = None.
Proof.
  destruct (download_success
              (scripted_env [ConnectFails "refused"; Completes [Byte.x07]] JNull)
              (JStr "http://h/a.bin") (p_dest plan_a) 2 1 empty_world eq_refl)
    as (u & i & body & _ & _ & _ & _ & _ & Htmp).
  exact Htmp.
Defined.

(** ** The loop over the entries *)

(** An entry that raises has made directories at most: it has printed
    nothing, sent no request and written no file. *)
Lemma process_entry_raises (E : env) (dest_root : string) (entry : json)
  (downloaded : nat) (w w1 : world) (x : exn) :
  process_entry E dest_root entry downloaded w = (Raise x, w1) ->
  files w1 = files w /\ requests w1 = requests w /\ out w1 = out w
  /\ history w1 = history w /\ dirs w ⊆ dirs w1.
Proof.
  unfold process_entry.
  destruct (resolve_entry dest_root entry) as [[p|]|e]; try discriminate.
  - assert (Hens : files (snd (ensure_dir E (p_mkdir p) w)) = files w
                   /\ requests (snd (ensure_dir E (p_mkdir p) w)) = requests w
                   /\ out (snd (ensure_dir E (p_mkdir p) w)) = out w
                   /\ history (snd (ensure_dir E (p_mkdir p) w)) = history w
                   /\ dirs w ⊆ dirs (snd (ensure_dir E (p_mkdir p) w))).
    { unfold ensure_dir. destruct (mkdir_fails E (path_str (p_mkdir p)));
        cbn [snd files requests out history dirs];
        repeat (split; [reflexivity|]); apply union_subseteq_l. }
    destruct (ensure_dir E (p_mkdir p) w) as [[[]|e] w2]; cbn [snd] in Hens.
    + destruct (dest_exists E w2 (path_str (p_dest p))) as [b|e].
      * destruct (fetch E (p_name p) (p_url p) (p_dest p) downloaded w2); discriminate.
      * now intros [= _ <-].
    + now intros [= _ <-].
  - intros [= _ <-]. repeat (split; [reflexivity|]). reflexivity.
Qed.

Lemma run_entries_stops (E : env) (dest_root : string) (before after : list json)
  (entry : json) (x : exn) :
  forall (downloaded0 downloaded : nat) (w w1 : world),
  run_entries E dest_root before downloaded0 w = (Ok downloaded, w1) ->
  fst (process_entry E dest_root entry downloaded w1) = Raise x ->
  run_entries E dest_root (before ++ entry :: after) downloaded0 w
  = (Raise x, snd (process_entry E dest_root entry downloaded w1)).
Proof.
  induction before as [|e rest IH]; intros downloaded0 downloaded w w1;
    cbn [List.app run_entries].
  - intros [= <- <-] Hraise.
    destruct (process_entry E dest_root entry downloaded0 w) as [r w2].
    cbn [fst snd] in *. now subst r.
  - destruct (process_entry E dest_root e downloaded0 w) as [[n|y] w2]; [|discriminate].
    apply IH.
Qed.

(** X8: an entry that raises ends the run there: the entries after it are
    not processed, and [main] ends with the uncaught exception, status 1,
    without printing the tally.  The output, the requests sent and the
    files are those the entries before it left; the raising entry has at
    most made directories. *)
Theorem raising_entry_stops_run (E : env) (prog snapshot_path dest_root : string)
  (more : list string) (data : json) (before after : list json) (entry : json)
  (x : exn) (downloaded : nat) (w w1 : world) :
  read_json E snapshot_path = Ok data ->
  manifest_entries data = Some (before ++ entry :: after) ->
  run_entries E dest_root before 0
    (print (MsgFound (List.length (before ++ entry :: after))) w) = (Ok downloaded, w1) ->
  fst (process_entry E dest_root entry downloaded w1) = Raise x ->
  let r := main E (prog :: snapshot_path :: dest_root :: more) w in
  r = (Uncaught x, snd (process_entry E dest_root entry downloaded w1))
  /\ exit_code (fst r) = 1%Z
  /\ out (snd r) = out w1
  /\ requests (snd r) = requests w1
  /\ files (snd r) = files w1
  /\ history (snd r) = history w1
  /\ dirs w1 ⊆ dirs (snd r).
Proof.
  intros Hread Hent Hrun Hraise r.
  pose proof (run_entries_stops E dest_root before after entry x 0 downloaded _ w1
                Hrun Hraise) as Hstop.
  assert (Hmain : r = (Uncaught x, snd (process_entry E dest_root entry downloaded w1))).
  { subst r. cbn [main]. rewrite Hread, Hent. now rewrite Hstop. }
  destruct (process_entry E dest_root entry downloaded w1) as [res w2] eqn:Hp.
  cbn [fst snd] in *. subst res.
  destruct (process_entry_raises _ _ _ _ _ _ _ Hp) as (Hf & Hq & Ho & Hh & Hd).
  rewrite Hmain. cbn [fst snd exit_code]. auto 10.
Qed.

Lemma raising_entry_stops_run_witness :
  fst (main (scripted_env [Completes [Byte.x01]] (JList [entry_a; JStr "v1"; entry_m]))
         example_argv empty_world)
  = Uncaught AttributeError
  /\ requests (snd (main (scripted_env [Completes [Byte.x01]]
                            (JList [entry_a; JStr "v1"; entry_m]))
                      example_argv empty_world)) = 1.
Proof.
  assert (Hrun : run_entries (scripted_env [Completes [Byte.x01]]
                                (JList [entry_a; JStr "v1"; entry_m]))
                   "models" [entry_a] 0 (print (MsgFound 3) empty_world)
                 = (Ok 1, snd (run_entries (scripted_env [Completes [Byte.x01]]
                                              (JList [entry_a; JStr "v1"; entry_m]))
                                 "models" [entry_a] 0 (print (MsgFound 3) empty_world))))
    by (vm_compute; reflexivity).
  destruct (raising_entry_stops_run
              (scripted_env [Completes [Byte.x01]] (JList [entry_a; JStr "v1"; entry_m]))
              "import_models.py" "snapshot.json" "models" []
              (JList [entry_a; JStr "v1"; entry_m]) [entry_a] [entry_m] (JStr "v1")
              AttributeError 1 empty_world _ eq_refl eq_refl Hrun eq_refl)
    as (Hmain & _ & _ & Hreq & _).
  unfold example_argv. split; [now rewrite Hmain|].
  rewrite Hreq. vm_compute. reflexivity.
Defined.

Lemma fetch_requests (E : env) (name url : json) (dest : ppath) (downloaded : nat)
  (w : world) :
  requests (snd (fetch E name url dest downloaded w)) <= requests w + 3.
Proof.
  unfold fetch. destruct (path_exists w (path_str dest)); cbn [snd print requests]; [lia|].
  unfold download_file, DEFAULT_RETRIES.
  destruct (attempts_log E url (tmp_path dest) (path_str dest) DEFAULT_BACKOFF 3 1
              (print (MsgDownloading name (path_str dest)) w))
    as (errs & _ & Hf & Ht & Hr & _).
  cbn zeta in *.
  destruct (attempts E url (tmp_path dest) (path_str dest) DEFAULT_BACKOFF 1 3 _)
    as [[|] w2]; cbn [fst snd print requests] in *.
  - specialize (Ht eq_refl). lia.
  - specialize (Hf eq_refl). lia.
Qed.

Lemma process_entry_requests (E : env) (dest_root : string) (entry : json)
  (downloaded : nat) (w : world) :
  requests (snd (process_entry E dest_root entry downloaded w)) <= requests w + 3.
Proof.
  unfold process_entry.
  destruct (resolve_entry dest_root entry) as [[p|]|e]; cbn [snd print requests]; try lia.
  unfold ensure_dir. destruct (mkdir_fails E (path_str (p_mkdir p)));
    cbn [snd requests]; [lia|].
  match goal with |- context [fetch E _ _ _ _ ?w1] => set (w1' := w1) end.
  destruct (dest_exists E w1' (path_str (p_dest p))) as [b|e];
    [|subst w1'; cbn [snd requests]; lia].
  pose proof (fetch_requests E (p_name p) (p_url p) (p_dest p) downloaded w1') as H.
  destruct (fetch E (p_name p) (p_url p) (p_dest p) downloaded w1') as [n w2].
  subst w1'. cbn [snd requests] in *. exact H.
Qed.

(** X9: a run sends at most three requests for each entry of the
    snapshot, whether it ends normally or with an exception. *)
Theorem run_requests_bound (E : env) (dest_root : string) (entries : list json)
  (downloaded : nat) (w : world) :
  requests (snd (run_entries E dest_root entries downloaded w))
  <= requests w + 3 * List.length entries.
Proof.
  revert downloaded w. induction entries as [|e rest IH]; intros downloaded w;
    cbn [run_entries List.length snd]; [lia|].
  pose proof (process_entry_requests E dest_root e downloaded w) as Hp.
  destruct (process_entry E dest_root e downloaded w) as [[n|x] w1]; cbn [snd] in *.
  - specialize (IH n w1). lia.
  - lia.
Qed.

Lemma attempts_count (E : env) (url : json) (tmp d : string) (backoff : Q)
  (remaining : nat) :
  forall (attempt : nat) (w : world),
  count_downloaded (out (snd (attempts E url tmp d backoff attempt remaining w)))
  = count_downloaded (out w).
Proof.
  induction remaining as [|k IH]; intros attempt w; cbn [attempts]; [reflexivity|].
  pose proof (try_body_out E url tmp d w) as Hout.
  destruct (try_body E url tmp d w) as [[err|] w1]; cbn [snd] in *.
  - rewrite IH. cbn [sleep print out]. unfold count_downloaded.
    cbn [List.filter]. now rewrite Hout.
  - now rewrite Hout.
Qed.

Lemma fetch_count_downloaded (E : env) (name url : json) (dest : ppath)
  (downloaded : nat) (w : world) :
  count_downloaded (out (snd (fetch E name url dest downloaded w))) + downloaded
  = count_downloaded (out w) + fst (fetch E name url dest downloaded w).
Proof.
  unfold fetch. destruct (path_exists w (path_str dest)); cbn [fst snd]; [reflexivity|].
  pose proof (attempts_count E url (tmp_path dest) (path_str dest) DEFAULT_BACKOFF
                DEFAULT_RETRIES 1 (print (MsgDownloading name (path_str dest)) w)) as H.
  unfold download_file.
  destruct (attempts E url (tmp_path dest) (path_str dest) DEFAULT_BACKOFF 1
              DEFAULT_RETRIES _) as [[|] w2]; cbn [fst snd print out] in *;
    unfold count_downloaded in *; cbn [List.filter List.length] in *; lia.
Qed.

Lemma process_entry_count (E : env) (dest_root : string) (entry : json)
  (downloaded n : nat) (w w1 : world) :
  process_entry E dest_root entry downloaded w = (Ok n, w1) ->
  count_downloaded (out w1) + downloaded = count_downloaded (out w) + n.
Proof.
  unfold process_entry.
  destruct (resolve_entry dest_root entry) as [[p|]|e]; try discriminate.
  - unfold ensure_dir. destruct (mkdir_fails E (path_str (p_mkdir p))); [discriminate|].
    match goal with |- context [fetch E _ _ _ _ ?w1] => set (w1' := w1) end.
    destruct (dest_exists E w1' (path_str (p_dest p))) as [b|e]; [|discriminate].
    pose proof (fetch_count_downloaded E (p_name p) (p_url p) (p_dest p) downloaded w1')
      as H.
    destruct (fetch E (p_name p) (p_url p) (p_dest p) downloaded w1') as [m w2].
    subst w1'. cbn [fst snd out] in H. intros [= <- <-]. exact H.
  - intros [= <- <-]. reflexivity.
Qed.

Lemma run_entries_count (E : env) (dest_root : string) (entries : list json) :
  forall (downloaded n : nat) (w w1 : world),
  run_entries E dest_root entries downloaded w = (Ok n, w1) ->
  count_downloaded (out w1) + downloaded = count_downloaded (out w) + n.
Proof.
  induction entries as [|e rest IH]; intros downloaded n w w1; cbn [run_entries].
  - now intros [= <- <-].
  - destruct (process_entry E dest_root e downloaded w) as [[m|x] w2] eqn:Hp;
      [|discriminate].
    intros Hrun. apply IH in Hrun. apply process_entry_count in Hp. lia.
Qed.

(** X10: when [main] exits with status 0, the number in the tally it
    prints last is the number of "Downloaded:" lines printed during the
    run. *)
Theorem tally_counts_downloads (E : env) (argv : list string) (w w' : world) :
  main E argv w = (Exit 0, w') ->
  exists n rest,
    out w' = Print (MsgFinished n) :: rest
    /\ count_downloaded (out w') = count_downloaded (out w) + n.
Proof.
  destruct argv as [|prog [|snapshot_path [|dest_root more]]]; cbn [main];
    try discriminate.
  destruct (read_json E snapshot_path) as [data|e]; [|discriminate].
  destruct (manifest_entries data) as [entries|]; [|discriminate].
  destruct (run_entries E dest_root entries 0 _) as [[n|x] w2] eqn:Hrun; [|discriminate].
  intros [= <-]. exists n, (out w2). split; [reflexivity|].
  apply run_entries_count in Hrun. cbn [print out] in *.
  unfold count_downloaded in *. cbn [List.filter] in *. lia.
Qed.

Lemma tally_counts_downloads_witness :
  exists n rest,
    out after_first_run = Print (MsgFinished n) :: rest
    /\ count_downloaded (out after_first_run) = count_downloaded (out empty_world) + n.
Proof.
  apply (tally_counts_downloads two_runs_env example_argv empty_world).
  vm_compute. reflexivity.
Defined.

(** ** What a run leaves alone *)

Lemma path_exists_same (w w1 : world) (q : string) :
  files w1 = files w -> dirs w ⊆ dirs w1 ->
  path_exists w q = true -> path_exists w1 q = true.
Proof.
  intros Hf Hd. apply path_exists_kept. split; [now rewrite Hf | exact Hd].
Qed.

Lemma process_entry_present (E : env) (dest_root : string) (entry : json)
  (downloaded : nat) (w : world) :
  (forall p, resolve_entry dest_root entry = Ok (Some p) ->
             path_exists w (path_str (p_dest p)) = true) ->
  let r := process_entry E dest_root entry downloaded w in
  requests (snd r) = requests w /\ files (snd r) = files w
  /\ history (snd r) = history w /\ dirs w ⊆ dirs (snd r)
  /\ (forall n, fst r = Ok n -> n = downloaded).
Proof.
  intros Hex r. subst r. unfold process_entry.
  destruct (resolve_entry dest_root entry) as [[p|]|e]; cbn [fst snd print];
    try (repeat split; try reflexivity; congruence).
  specialize (Hex p eq_refl).
  unfold ensure_dir. destruct (mkdir_fails E (path_str (p_mkdir p))); cbn [fst snd].
  - cbn [files dirs requests history].
    repeat (split; [reflexivity|]). split; [apply union_subseteq_l | discriminate].
  - unfold dest_exists, fetch.
    match goal with |- context [path_exists ?w1 _] => set (w1' := w1) end.
    assert (Hex1 : path_exists w1' (path_str (p_dest p)) = true).
    { apply (path_exists_same w w1'); [reflexivity | apply union_subseteq_l | exact Hex]. }
    rewrite Hex1. subst w1'.
    cbn [fst snd print files dirs requests history].
    split; [reflexivity|]. split; [reflexivity|]. split; [reflexivity|].
    split; [apply union_subseteq_l | congruence].
Qed.

(** X11: when the destination of every entry that has one exists, the
    loop sends no request and leaves the file store as it is, whatever the
    network would answer, and it counts no download. *)
Theorem run_on_present_destinations (E : env) (dest_root : string)
  (entries : list json) (downloaded : nat) (w : world) :
  (forall e p, In e entries -> resolve_entry dest_root e = Ok (Some p) ->
               path_exists w (path_str (p_dest p)) = true) ->
  let r := run_entries E dest_root entries downloaded w in
  requests (snd r) = requests w
  /\ files (snd r) = files w
  /\ history (snd r) = history w
  /\ (forall n, fst r = Ok n -> n = downloaded).
Proof.
  revert downloaded w. induction entries as [|e rest IH]; intros downloaded w Hex;
    cbn [run_entries].
  - cbn. repeat split; congruence.
  - destruct (process_entry_present E dest_root e downloaded w
                (fun p => Hex e p (or_introl eq_refl))) as (Hq & Hf & Hh & Hd & Hn).
    destruct (process_entry E dest_root e downloaded w) as [[n|x] w1];
      cbn [fst snd] in *.
    + rewrite (Hn n eq_refl).
      destruct (IH downloaded w1) as (Hq' & Hf' & Hh' & Hn').
      { intros e' p Hin Hres. apply (path_exists_same w w1 _ Hf Hd).
        apply (Hex e' p); [now right | exact Hres]. }
      cbn zeta in *. rewrite Hq', Hf', Hh'. auto.
    + repeat split; try assumption; try discriminate.
Qed.

Lemma run_on_present_destinations_witness :
  requests (snd (run_entries delivering_env "models" [entry_a; entry_a] 0 after_download))
  = requests after_download.
Proof.
  refine (proj1 (run_on_present_destinations delivering_env "models" [entry_a; entry_a] 0
                   after_download _)).
  intros e p [<-|[<-|[]]] [= <-]; vm_compute; reflexivity.
Defined.

Lemma try_body_elsewhere (E : env) (url : json) (tmp d q : string) (w : world) :
  q <> tmp -> q <> d -> files (snd (try_body E url tmp d w)) !! q = files w !! q.
Proof.
  intros Ht Hd. unfold try_body. destruct url as [| | | |u| |]; cbn [snd]; try reflexivity.
  destruct (net E u (requests w)); cbn [snd]; try reflexivity;
    try (cbn [copy_into open_wb set_files count_request files];
         now rewrite !lookup_insert_ne by congruence).
  rewrite replace_after_copy. cbn [copy_into open_wb set_files count_request files].
  rewrite lookup_insert_ne by congruence. rewrite lookup_delete_ne by congruence.
  now rewrite !lookup_insert_ne by congruence.
Qed.

Lemma attempts_elsewhere (E : env) (url : json) (tmp d q : string) (backoff : Q)
  (remaining : nat) :
  q <> tmp -> q <> d -> forall (attempt : nat) (w : world),
  files (snd (attempts E url tmp d backoff attempt remaining w)) !! q = files w !! q.
Proof.
  intros Ht Hd. induction remaining as [|k IH]; intros attempt w; cbn [attempts];
    [reflexivity|].
  pose proof (try_body_elsewhere E url tmp d q w Ht Hd) as H.
  destruct (try_body E url tmp d w) as [[err|] w1]; cbn [snd] in *; [|exact H].
  now rewrite IH.
Qed.

Lemma fetch_elsewhere (E : env) (name url : json) (dest : ppath) (downloaded : nat)
  (q : string) (w : world) :
  q <> tmp_path dest -> q <> path_str dest ->
  files (snd (fetch E name url dest downloaded w)) !! q = files w !! q.
Proof.
  intros Ht Hd. unfold fetch. destruct (path_exists w (path_str dest)); [reflexivity|].
  pose proof (attempts_elsewhere E url (tmp_path dest) (path_str dest) q DEFAULT_BACKOFF
                DEFAULT_RETRIES Ht Hd 1 (print (MsgDownloading name (path_str dest)) w))
    as H.
  unfold download_file.
  destruct (attempts E url (tmp_path dest) (path_str dest) DEFAULT_BACKOFF 1
              DEFAULT_RETRIES _) as [[|] w2]; exact H.
Qed.

(** The entry leaves [q] alone when [q] is not its temporary file and
    either is a file already or is not its destination. *)
Lemma process_entry_leaves (E : env) (dest_root : string) (entry : json)
  (downloaded : nat) (q : string) (w : world) :
  (forall p, resolve_entry dest_root entry = Ok (Some p) ->
             q <> tmp_path (p_dest p)
             /\ (q <> path_str (p_dest p) \/ is_Some (files w !! q))) ->
  files (snd (process_entry E dest_root entry downloaded w)) !! q = files w !! q.
Proof.
  intros Hq. unfold process_entry.
  destruct (resolve_entry dest_root entry) as [[p|]|e]; try reflexivity.
  destruct (Hq p eq_refl) as [Ht Hd].
  unfold ensure_dir. destruct (mkdir_fails E (path_str (p_mkdir p))); [reflexivity|].
  match goal with |- context [fetch E _ _ _ _ ?w1] => set (w1' := w1) end.
  destruct (dest_exists E w1' (path_str (p_dest p))) as [b|e] eqn:Hcheck; [|reflexivity].
  destruct (decide (q = path_str (p_dest p))) as [Heq|Hne].
  - destruct Hd as [Hd|Hd]; [contradiction|].
    assert (Hex : path_exists w1' (path_str (p_dest p)) = true).
    { unfold path_exists. subst w1'. cbn [files]. rewrite <- Heq.
      rewrite (bool_decide_eq_true_2 _ Hd). reflexivity. }
    unfold fetch. rewrite Hex. reflexivity.
  - pose proof (fetch_elsewhere E (p_name p) (p_url p) (p_dest p) downloaded q w1' Ht Hne)
      as H.
    destruct (fetch E (p_name p) (p_url p) (p_dest p) downloaded w1') as [n w2].
    exact H.
Qed.

(** X12: the loop writes nowhere but at the destinations of its entries
    and at their temporary files: a path that is neither is the same
    before and after, absent if it was absent.  Paths are compared in
    pathlib's normal form, with the same anchor and without [..], so that
    different texts are different files. *)
Theorem run_writes_only_destinations (E : env) (dest_root : string)
  (entries : list json) (q : string) (downloaded : nat) (w : world) :
  normal_text q ->
  (forall e p, In e entries -> resolve_entry dest_root e = Ok (Some p) ->
               dotdot_free (p_dest p) = true
               /\ anchor (p_dest p) = anchor (parse_path q)
               /\ q <> path_str (p_dest p) /\ q <> tmp_path (p_dest p)) ->
  files (snd (run_entries E dest_root entries downloaded w)) !! q = files w !! q.
Proof.
  intros _. revert downloaded w. induction entries as [|e rest IH]; intros downloaded w Hq;
    cbn [run_entries]; [reflexivity|].
  pose proof (process_entry_leaves E dest_root e downloaded q w) as Hp.
  destruct (process_entry E dest_root e downloaded w) as [[n|x] w1]; cbn [snd] in *.
  - rewrite IH; [|intros e' p Hin; apply Hq; now right].
    apply Hp. intros p Hres.
    destruct (Hq e p (or_introl eq_refl) Hres) as (_ & _ & Hd & Ht). auto.
  - apply Hp. intros p Hres.
    destruct (Hq e p (or_introl eq_refl) Hres) as (_ & _ & Hd & Ht). auto.
Qed.

Lemma run_writes_only_destinations_witness :
  files (snd (run_entries two_runs_env "models" [entry_m; entry_m_tmp] 0 empty_world))
    !! "models/readme.txt" = None.
Proof.
  refine (run_writes_only_destinations two_runs_env "models" [entry_m; entry_m_tmp]
            "models/readme.txt" 0 empty_world _ _).
  - split; reflexivity.
  - intros e p [<-|[<-|[]]] [= <-];
      (split; [reflexivity|]); (split; [reflexivity|]); split; vm_compute; discriminate.
Defined.

(** X13: a file that exists when the loop starts is never overwritten,
    truncated or removed, unless its path is the temporary file of an
    entry: an entry whose destination it is is skipped.  Paths are
    compared in pathlib's normal form, with the same anchor and without
    [..], so that different texts are different files. *)
Theorem run_keeps_existing_files (E : env) (dest_root : string)
  (entries : list json) (q : string) (content : bytes) (downloaded : nat) (w : world) :
  files w !! q = Some content ->
  normal_text q ->
  (forall e p, In e entries -> resolve_entry dest_root e = Ok (Some p) ->
               dotdot_free (p_dest p) = true
               /\ anchor (p_dest p) = anchor (parse_path q)
               /\ q <> tmp_path (p_dest p)) ->
  files (snd (run_entries E dest_root entries downloaded w)) !! q = Some content.
Proof.
  intros Hc _. revert downloaded w Hc.
  induction entries as [|e rest IH]; intros downloaded w Hc Hq;
    cbn [run_entries]; [exact Hc|].
  assert (Hp : files (snd (process_entry E dest_root e downloaded w)) !! q = Some content).
  { rewrite process_entry_leaves; [exact Hc|].
    intros p Hres. split; [now apply (Hq e p (or_introl eq_refl)) |].
    right. rewrite Hc. now eexists. }
  destruct (process_entry E dest_root e downloaded w) as [[n|x] w1]; cbn [snd] in *.
  - apply IH; [exact Hp|]. intros e' p Hin. apply Hq. now right.
  - exact Hp.
Qed.

Lemma run_keeps_existing_files_witness :
  files (snd (run_entries delivering_env "models" [entry_a; entry_b] 0 after_download))
    !! "models/embeddings/a.bin" = Some [Byte.x01].
Proof.
  refine (run_keeps_existing_files delivering_env "models" [entry_a; entry_b]
            "models/embeddings/a.bin" [Byte.x01] 0 after_download _ _ _).
  - vm_compute. reflexivity.
  - split; reflexivity.
  - intros e p [<-|[<-|[]]] [= <-];
      (split; [reflexivity|]); (split; [reflexivity|]); vm_compute; discriminate.
Defined.

(** ** Destinations *)

Lemma first_truthy_two (kv : list (string * json)) (a b : string) :
  first_truthy kv [a; b]
  = if truthy (py_or (dict_get kv a) (py_or (dict_get kv b) JNull))
    then Some (py_or (dict_get kv a) (py_or (dict_get kv b) JNull))
    else None.
Proof.
  unfold first_truthy, py_or. cbn [List.map List.find].
  destruct (truthy (dict_get kv a)) eqn:Ha; [now rewrite Ha|].
  destruct (truthy (dict_get kv b)) eqn:Hb; [now rewrite Hb|].
  reflexivity.
Qed.

Lemma url_chain (kv : list (string * json)) :
  match first_truthy kv URL_KEYS with
  | Some v => py_or (dict_get kv "download_url")
                (py_or (dict_get kv "url")
                   (py_or (dict_get kv "file_url") (dict_get kv "location"))) = v
              /\ truthy v = true
  | None => truthy (py_or (dict_get kv "download_url")
                      (py_or (dict_get kv "url")
                         (py_or (dict_get kv "file_url") (dict_get kv "location"))))
            = false
  end.
Proof.
  unfold first_truthy, URL_KEYS, py_or. cbn [List.map List.find].
  destruct (truthy (dict_get kv "download_url")) eqn:Ha; [auto|].
  destruct (truthy (dict_get kv "url")) eqn:Hb; [auto|].
  destruct (truthy (dict_get kv "file_url")) eqn:Hc; [auto|].
  destruct (truthy (dict_get kv "location")) eqn:Hd; auto.
Qed.

Lemma split_on_no_sep (sep : ascii) (s : string) :
  str_has sep s = false -> Str.split_on sep s = [s].
Proof.
  induction s as [|c r IH]; cbn [str_has Str.split_on]; [reflexivity|].
  intros H. apply orb_false_iff in H. destruct H as [Hc Hr].
  now rewrite Hc, (IH Hr).
Qed.

Lemma leading_no_sep (c : ascii) (s : string) :
  str_has c s = false -> Str.leading c s = 0.
Proof.
  destruct s as [|d r]; cbn [str_has Str.leading]; [reflexivity|].
  intros H. apply orb_false_iff in H. destruct H as [Hd _]. now rewrite Hd.
Qed.

Lemma parse_path_plain (n : string) :
  plain_name n -> parse_path n = {| anchor := ""; parts := [n] |}.
Proof.
  intros (Hne & Hdot & Hslash). unfold parse_path.
  rewrite (leading_no_sep _ _ Hslash), (split_on_no_sep _ _ Hslash).
  cbn [List.filter].
  apply String.eqb_neq in Hne. apply String.eqb_neq in Hdot.
  now rewrite Hne, Hdot.
Qed.

Lemma parse_path_folder (filename : string) :
  parse_path (choose_folder_by_name filename)
  = {| anchor := ""; parts := [choose_folder_by_name filename] |}.
Proof.
  pose proof (choose_folder_in_table filename) as H.
  cbn [DEFAULT_LAYOUT List.map fst] in H.
  destruct H as [<-|[<-|[<-|[<-|[<-|[<-|[]]]]]]]; reflexivity.
Qed.

(** X14: for an entry without a true path field whose name is one path
    component, the destination is the name inside the folder the name
    classifies to inside the destination root, and that folder is the
    directory handed to [ensure_dir]. *)
Theorem default_destination (dest_root : string) (kv : list (string * json))
  (p : plan) (n : string) :
  resolve_entry dest_root (JDict kv) = Ok (Some p) ->
  first_truthy kv PATH_KEYS = None ->
  p_name p = JStr n ->
  plain_name n ->
  p_mkdir p = {| anchor := anchor (parse_path dest_root);
                 parts := parts (parse_path dest_root) ++ [choose_folder_by_name n] |}
  /\ p_dest p = {| anchor := anchor (parse_path dest_root);
                   parts := parts (parse_path dest_root)
                            ++ [choose_folder_by_name n; n] |}.
Proof.
  unfold PATH_KEYS. rewrite resolve_entry_dict, first_truthy_two. cbn zeta.
  set (url := py_or (dict_get kv "download_url") _).
  set (name0 := py_or (dict_get kv "name") _).
  set (rel_path := py_or (dict_get kv "path") _).
  destruct (truthy url); cbn [negb]; [|discriminate].
  intros Hres Hrel Hname Hplain.
  destruct (truthy rel_path); [discriminate|].
  destruct (if negb (truthy name0) then name_from_url url else Ok name0) as [name|e];
    cbn [bind] in Hres; [|discriminate].
  destruct name as [| | | |m| |]; try discriminate.
  injection Hres as <-. cbn [p_name] in Hname. injection Hname as ->.
  cbn [p_mkdir p_dest].
  rewrite parse_path_folder, (parse_path_plain n Hplain).
  unfold path_join. cbn [anchor parts String.eqb].
  split; [reflexivity|]. now rewrite <- List.app_assoc.
Qed.

Lemma default_destination_witness :
  exists p, resolve_entry "/srv/models" (JDict [("url", JStr "http://h/x?k=1");
                                                 ("filename", JStr "RealESRGAN_x4")])
            = Ok (Some p)
            /\ path_str (p_dest p) = "/srv/models/upscale_models/RealESRGAN_x4".
Proof.
  eexists. split; [reflexivity|].
  destruct (default_destination "/srv/models"
              [("url", JStr "http://h/x?k=1"); ("filename", JStr "RealESRGAN_x4")]
              _ "RealESRGAN_x4" eq_refl eq_refl eq_refl) as [_ Hd].
  - repeat split; discriminate.
  - rewrite Hd. reflexivity.
Defined.

Lemma anchor_of_slash (r : string) :
  String.eqb (anchor (parse_path (String "/" r))) "" = false.
Proof.
  unfold parse_path. cbn [anchor Str.leading].
  change (Ascii.eqb "/" "/") with true. cbv iota.
  destruct (Str.leading "/" r) as [|[|k]]; reflexivity.
Qed.

(** X15: a relative path field that starts with a slash replaces the
    destination root: the destination is that path itself, wherever the
    root is. *)
Theorem absolute_path_replaces_root (dest_root : string) (kv : list (string * json))
  (p : plan) (r : string) :
  resolve_entry dest_root (JDict kv) = Ok (Some p) ->
  first_truthy kv PATH_KEYS = Some (JStr (String "/" r)) ->
  p_dest p = parse_path (String "/" r)
  /\ p_mkdir p = parent (parse_path (String "/" r)).
Proof.
  unfold PATH_KEYS. rewrite resolve_entry_dict, first_truthy_two. cbn zeta.
  set (url := py_or (dict_get kv "download_url") _).
  set (name0 := py_or (dict_get kv "name") _).
  set (rel_path := py_or (dict_get kv "path") _).
  destruct (truthy url); cbn [negb]; [|discriminate].
  intros Hres Hrel.
  destruct (truthy rel_path); [|discriminate].
  injection Hrel as Hrel. rewrite Hrel in Hres.
  destruct (if negb (truthy name0) then name_from_url url else Ok name0) as [name|e];
    cbn [bind] in Hres; [|discriminate].
  injection Hres as <-. cbn [p_mkdir p_dest].
  unfold path_join. now rewrite anchor_of_slash.
Qed.

Lemma absolute_path_replaces_root_witness :
  exists p, resolve_entry "models" (JDict [("url", JStr "http://h/x");
                                           ("path", JStr "/etc/x.conf")])
            = Ok (Some p)
            /\ path_str (p_dest p) = "/etc/x.conf".
Proof.
  eexists. split; [reflexivity|].
  rewrite (proj1 (absolute_path_replaces_root "models"
                    [("url", JStr "http://h/x"); ("path", JStr "/etc/x.conf")]
                    _ "etc/x.conf" eq_refl eq_refl)).
  reflexivity.
Defined.

Lemma path_in_dir_chain (p : ppath) :
  parts p <> [] -> In (path_str p) (dir_chain p).
Proof.
  intros Hne. unfold dir_chain. apply List.in_map_iff.
  exists (List.length (parts p)). split.
  - rewrite List.firstn_all. now destruct p.
  - apply List.in_seq. destruct (parts p); [contradiction | cbn [List.length]; lia].
Qed.

(** X17: an entry without name and path fields whose URL has nothing
    after its last slash is never downloaded: its name is empty, its
    destination is the "checkpoints" folder itself, which [ensure_dir] has
    just made, and the entry is reported as already existing without any
    request. *)
Theorem trailing_slash_url_skipped (E : env) (dest_root : string)
  (kv : list (string * json)) (u : string) (downloaded : nat) (w : world) :
  first_truthy kv URL_KEYS = Some (JStr u) ->
  first_truthy kv NAME_KEYS = None ->
  first_truthy kv PATH_KEYS = None ->
  basename (Str.before_first "?" u) = "" ->
  let folder := {| anchor := anchor (parse_path dest_root);
                   parts := parts (parse_path dest_root) ++ ["checkpoints"] |} in
  mkdir_fails E (path_str folder) = false ->
  process_entry E dest_root (JDict kv) downloaded w
    = (Ok downloaded, print (MsgExists (path_str folder)) (snd (ensure_dir E folder w)))
  /\ requests (snd (process_entry E dest_root (JDict kv) downloaded w)) = requests w
  /\ files (snd (process_entry E dest_root (JDict kv) downloaded w)) = files w.
Proof.
  intros Hurl Hname Hpath Hbase folder Hmk.
  assert (Hres : resolve_entry dest_root (JDict kv)
                 = Ok (Some {| p_url := JStr u; p_name := JStr "";
                               p_mkdir := folder; p_dest := folder |})).
  { pose proof (url_chain kv) as Hchain. rewrite Hurl in Hchain.
    destruct Hchain as [Hchain Ht].
    revert Hname Hpath. unfold NAME_KEYS, PATH_KEYS. rewrite !first_truthy_two.
    rewrite resolve_entry_dict. cbn zeta. rewrite Hchain, Ht.
    set (name0 := py_or (dict_get kv "name") _).
    set (rel_path := py_or (dict_get kv "path") _).
    intros Hname Hpath.
    destruct (truthy name0); [discriminate|].
    destruct (truthy rel_path); [discriminate|].
    cbn [negb name_from_url bind]. rewrite Hbase.
    change (choose_folder_by_name "") with "checkpoints".
    change (parse_path "checkpoints") with {| anchor := ""; parts := ["checkpoints"] |}.
    change (parse_path "") with {| anchor := ""; parts := [] |}.
    unfold path_join. cbn [anchor parts String.eqb].
    rewrite List.app_nil_r. reflexivity. }
  destruct (ensure_dir_ok E folder w Hmk) as (Hens & Hf & Hq & _ & _ & Hdirs).
  assert (Hex : path_exists (snd (ensure_dir E folder w)) (path_str folder) = true).
  { unfold path_exists. rewrite Hdirs.
    rewrite (bool_decide_eq_true_2 (path_str folder ∈ dirs w ∪ list_to_set (dir_chain folder))).
    - now rewrite orb_true_r.
    - apply elem_of_union_r, elem_of_list_to_set, list_elem_of_In, path_in_dir_chain.
      subst folder. cbn [parts]. now destruct (parts (parse_path dest_root)). }
  assert (Hproc : process_entry E dest_root (JDict kv) downloaded w
                  = (Ok downloaded,
                     print (MsgExists (path_str folder)) (snd (ensure_dir E folder w)))).
  { unfold process_entry. rewrite Hres. cbn [p_mkdir p_name p_url p_dest].
    rewrite Hens. unfold dest_exists, fetch. now rewrite Hex. }
  rewrite Hproc. cbn [snd print requests files]. auto.
Qed.

Lemma trailing_slash_url_skipped_witness :
  process_entry delivering_env "models" (JDict [("url", JStr "http://h/models/?v=2")])
    0 empty_world
  = (Ok 0,
     print (MsgExists "models/checkpoints")
       (snd (ensure_dir delivering_env (parse_path "models/checkpoints") empty_world))).
Proof.
  exact (proj1 (trailing_slash_url_skipped delivering_env "models"
                  [("url", JStr "http://h/models/?v=2")] "http://h/models/?v=2"
                  0 empty_world eq_refl eq_refl eq_refl eq_refl eq_refl)).
Defined.

(** ** Exceptions and exit status *)

Lemma resolve_entry_exn (dest_root : string) (entry : json) (x : exn) :
  resolve_entry dest_root entry = Raise x -> x = AttributeError \/ x = TypeError.
Proof.
  destruct entry as [| | | | | |kv];
    try (cbn; intros [= <-]; now left).
  rewrite resolve_entry_dict. cbn zeta.
  set (url := py_or (dict_get kv "download_url") _).
  set (name0 := py_or (dict_get kv "name") _).
  set (rel_path := py_or (dict_get kv "path") _).
  destruct (truthy url); cbn [negb]; [|discriminate].
  destruct (if negb (truthy name0) then name_from_url url else Ok name0) as [name|e] eqn:Hn;
    cbn [bind].
  - destruct (truthy rel_path).
    + destruct rel_path; try discriminate; intros [= <-]; now right.
    + destruct name; try discriminate; intros [= <-]; now left.
  - intros [= <-]. destruct (negb (truthy name0)); [|discriminate].
    destruct url; cbn [name_from_url] in Hn; try discriminate;
      injection Hn as <-; now left.
Qed.

(** X18: an entry that raises has printed nothing, sent no request and
    written no file; it has at most made directories.  The exception is
    [AttributeError] or [TypeError] from the resolution of the entry
    (always [AttributeError] for an entry that is not a mapping, and then
    nothing at all has changed), the exception of [os.makedirs], or
    [OSError] from [dest.exists()] on a destination that is not there. *)
Theorem raising_entry_writes_nothing (E : env) (dest_root : string) (entry : json)
  (downloaded : nat) (w : world) :
  (forall x w1,
     process_entry E dest_root entry downloaded w = (Raise x, w1) ->
     (files w1 = files w /\ requests w1 = requests w /\ out w1 = out w
      /\ history w1 = history w /\ dirs w ⊆ dirs w1)
     /\ (((x = AttributeError \/ x = TypeError)
          /\ resolve_entry dest_root entry = Raise x /\ w1 = w)
         \/ (exists p,
               resolve_entry dest_root entry = Ok (Some p)
               /\ ((mkdir_fails E (path_str (p_mkdir p)) = true
                    /\ x = mkdir_error E (path_str (p_mkdir p)))
                   \/ (mkdir_fails E (path_str (p_mkdir p)) = false
                       /\ stat_fails E (path_str (p_dest p)) = true
                       /\ path_exists (snd (ensure_dir E (p_mkdir p) w))
                            (path_str (p_dest p)) = false
                       /\ x = OSError)))))
  /\ ((forall kv, entry <> JDict kv) ->
      process_entry E dest_root entry downloaded w = (Raise AttributeError, w)).
Proof.
  split.
  - intros x w1 Hp. split; [exact (process_entry_raises _ _ _ _ _ _ _ Hp)|].
    revert Hp. unfold process_entry.
    destruct (resolve_entry dest_root entry) as [[p|]|e] eqn:Hres; try discriminate.
    + intros Hp. right. exists p. split; [reflexivity|].
      unfold ensure_dir in *. destruct (mkdir_fails E (path_str (p_mkdir p))) eqn:Hmk.
      * left. injection Hp as <- _. auto.
      * right. cbn [snd]. unfold dest_exists in Hp.
        match type of Hp with context [path_exists ?w1 _] => set (w1' := w1) in * end.
        destruct (path_exists w1' (path_str (p_dest p))).
        { destruct (fetch E (p_name p) (p_url p) (p_dest p) downloaded w1'); discriminate. }
        destruct (stat_fails E (path_str (p_dest p))).
        { injection Hp as <- _. auto. }
        destruct (fetch E (p_name p) (p_url p) (p_dest p) downloaded w1'); discriminate.
    + intros [= <- <-]. left. split; [|split; reflexivity].
      exact (resolve_entry_exn dest_root entry e Hres).
  - intros Hno. destruct entry; try reflexivity. exfalso. now apply (Hno kv).
Qed.

Lemma raising_entry_writes_nothing_witness :
  process_entry delivering_env "models" (JStr "v1.2") 0 after_download
  = (Raise AttributeError, after_download)
  /\ files (snd (process_entry harsh_env "models"
                   (JDict [("url", JStr "http://h/x");
                           ("name", JStr "a_name_of_more_than_thirty_characters.bin")])
                   0 empty_world)) = ∅.
Proof.
  split.
  - apply (proj2 (raising_entry_writes_nothing delivering_env "models" (JStr "v1.2") 0
                    after_download)).
    intros kv. discriminate.
  - assert (Hp : process_entry harsh_env "models"
                   (JDict [("url", JStr "http://h/x");
                           ("name", JStr "a_name_of_more_than_thirty_characters.bin")])
                   0 empty_world
                 = (Raise OSError,
                    snd (process_entry harsh_env "models"
                           (JDict [("url", JStr "http://h/x");
                                   ("name", JStr "a_name_of_more_than_thirty_characters.bin")])
                           0 empty_world)))
      by (vm_compute; reflexivity).
    exact (proj1 (proj1 (proj1 (raising_entry_writes_nothing harsh_env "models" _ 0
                                  empty_world) _ _ Hp))).
Defined.

Lemma attempts_not_url (E : env) (url : json) (tmp d : string) (backoff : Q)
  (remaining : nat) :
  (forall u, url <> JStr u) ->
  forall (attempt : nat) (w : world),
  let r := attempts E url tmp d backoff attempt remaining w in
  fst r = false /\ requests (snd r) = requests w /\ files (snd r) = files w
  /\ history (snd r) = history w.
Proof.
  intros Hno. induction remaining as [|k IH]; intros attempt w; cbn [attempts].
  - cbn. auto.
  - assert (Ht : try_body E url tmp d w = (Some (url_type_error E url), w)).
    { destruct url; try reflexivity. exfalso. now apply (Hno s). }
    rewrite Ht.
    destruct (IH (S attempt)
                (sleep (backoff * inject_Z (Z.of_nat attempt))
                   (print (MsgAttemptFailed attempt (url_type_error E url)) w)))
      as (Hf & Hq & Hfi & Hh).
    cbn zeta. rewrite Hf, Hq, Hfi, Hh. auto.
Qed.

(** X19: for a URL that is not a string (a number, [true], a list, a
    mapping) [download_file], called with its default arguments as [main]
    does, returns [False] after three failure lines without sending any
    request and without touching the file store: [urlopen] raises at each
    attempt and the exception is caught. *)
Theorem non_string_url_fails (E : env) (url : json) (dest : ppath) (w : world) :
  (forall u, url <> JStr u) ->
  let r := download_file E url dest DEFAULT_RETRIES DEFAULT_BACKOFF w in
  fst r = false
  /\ requests (snd r) = requests w
  /\ files (snd r) = files w
  /\ history (snd r) = history w
  /\ exists errs,
       List.length errs = 3
       /\ out (snd r) = List.rev (failure_log (3 # 2) 1 errs) ++ out w.
Proof.
  intros Hno r. subst r. unfold download_file.
  destruct (attempts_not_url E url (tmp_path dest) (path_str dest) DEFAULT_BACKOFF
              DEFAULT_RETRIES Hno 1 w) as (Hf & Hq & Hfi & Hh).
  destruct (attempts_log E url (tmp_path dest) (path_str dest) DEFAULT_BACKOFF
              DEFAULT_RETRIES 1 w) as (errs & Ho & Hlen & _).
  cbn zeta in *. split; [exact Hf|]. split; [exact Hq|]. split; [exact Hfi|].
  split; [exact Hh|]. exists errs. split; [now apply Hlen | exact Ho].
Qed.

Lemma non_string_url_fails_witness :
  fst (download_file delivering_env (JInt 5) (p_dest plan_a) DEFAULT_RETRIES
         DEFAULT_BACKOFF empty_world) = false.
Proof.
  apply (non_string_url_fails delivering_env (JInt 5) (p_dest plan_a) empty_world).
  intros u. discriminate.
Defined.

(** X20: [main] exits with status 2 exactly when fewer than two arguments
    follow the program name, and then it only prints the usage line: the
    snapshot is not read.  Its status is always 0, 1 or 2. *)
Theorem exit_status (E : env) (argv : list string) (w : world) :
  let r := main E argv w in
  (exit_code (fst r) = 2%Z <-> List.length argv < 3)
  /\ (List.length argv < 3 -> r = (Exit 2, print MsgUsage w))
  /\ (exit_code (fst r) = 0%Z \/ exit_code (fst r) = 1%Z \/ exit_code (fst r) = 2%Z).
Proof.
  intros r. subst r.
  destruct argv as [|prog [|snapshot_path [|dest_root more]]]; cbn [main List.length].
  1-3: cbn; repeat split; auto; lia.
  destruct (read_json E snapshot_path) as [data|e]; cbn [fst exit_code].
  - destruct (manifest_entries data) as [entries|]; cbn [fst exit_code].
    + destruct (run_entries E dest_root entries 0 _) as [[n|x] w2]; cbn [fst exit_code];
        (split; [split; [discriminate | lia] | split; [lia | auto]]).
    + split; [split; [discriminate | lia] | split; [lia | auto]].
  - split; [split; [discriminate | lia] | split; [lia | auto]].
Qed.

Lemma exit_status_witness :
  main delivering_env ["import_models.py"; "snapshot.json"] empty_world
  = (Exit 2, print MsgUsage empty_world).
Proof.
  apply (proj1 (proj2 (exit_status delivering_env ["import_models.py"; "snapshot.json"]
                         empty_world))).
  cbn. lia.
Defined.
